(** * deepchem/feat/graph_data.py: GraphData and BatchGraphData

    A shallow embedding of the two classes of [graph_data.py] and of the
    part of NumPy they call, followed by the properties of construction
    and batching.

    Layout of the development:
    - [NumPy]: arrays as values (dtype, shape, row-major data) and the
      pure content of [np.vstack], [np.hstack], [ndarray + int],
      [ndarray.astype(int)] and [np.array(list, dtype=int)];
    - [Store]: the object store (arrays are heap objects, every NumPy call
      returns a newly allocated array) and the state-and-exception monad
      the constructors run in;
    - [GraphData_init] and [BatchGraphData_init]: the two [__init__]
      methods, statement by statement;
    - the theorems. *)

From Stdlib Require Import ZArith Lia.
From stdpp Require Import prelude strings.

Local Open Scope Z_scope.
Local Open Scope nat_scope.

(** ** Exceptions and results *)

(** The Python exceptions the modelled code can raise. [AxisError] is
    NumPy's (a subclass of both ValueError and IndexError). *)
Inductive exn :=
| ValueError (msg : string)
| IndexError
| AttributeError
| TypeError
| OverflowError
| AxisError.

(** The outcome of a computation: a value, a raised exception, or [Stuck]
    when the model is asked to read an address the store does not hold
    (no Python execution reaches that: a reference always has a target). *)
Inductive result (A : Type) :=
| Ok (a : A)
| Raise (e : exn)
| Stuck.
Arguments Ok {A} a.
Arguments Raise {A} e.
Arguments Stuck {A}.

Definition rbind {A B} (r : result A) (k : A -> result B) : result B :=
  match r with
  | Ok a => k a
  | Raise e => Raise e
  | Stuck => Stuck
  end.

(** Left-to-right evaluation of a list comprehension whose body may raise. *)
Fixpoint rmap {A B} (f : A -> result B) (l : list A) : result (list B) :=
  match l with
  | [] => Ok []
  | x :: l' => rbind (f x) (fun y => rbind (rmap f l') (fun ys => Ok (y :: ys)))
  end.

(** ** NumPy arrays as values *)

Module NumPy.

(** The element types the model covers: [int64] (what [np.int] and the
    builtin [int] denote as a dtype on the 64-bit platforms the code was
    written for), [float64] and [object]. *)
Inductive np_dtype := Int64 | Float64 | Object.

#[global] Instance np_dtype_eq_dec : EqDecision np_dtype.
Proof. solve_decision. Defined.

(** An array element. A float64 is carried as its 64 bits: the code never
    computes on feature values, it only copies them. [ENone] occurs in
    object arrays only. *)
Inductive elem :=
| EInt (z : Z)
| EFloat (bits : Z)
| ENone.

#[global] Instance elem_eq_dec : EqDecision elem.
Proof. solve_decision. Defined.

(** [shape] is the tuple [a.shape]; [data] lists the elements in row-major
    (C) order. *)
Record ndarray := mk_ndarray {
  dtype : np_dtype;
  shape : list nat;
  data : list elem
}.

#[global] Instance ndarray_eq_dec : EqDecision ndarray.
Proof. solve_decision. Defined.

Definition ndim (a : ndarray) : nat := length (shape a).

Definition size_of (s : list nat) : nat := foldr Nat.mul 1 s.

(** Floating-point behaviour is not modelled; the four operations NumPy
    would need on the paths below are an interface. *)
Class Float64Ops := {
  (** int64 to float64 conversion (dtype promotion, [x + n] on floats) *)
  float_of_int : Z -> Z;
  (** float64 addition *)
  float_add : Z -> Z -> Z;
  (** the C cast float64 -> int64 of [astype(int)] on a float64 array *)
  int_of_float : Z -> Z;
  (** [int(x)] on a Python float stored in an object array, narrowed to
      int64; raises on nan, inf and out-of-range values *)
  py_int_of_float : Z -> result Z
}.

Definition int64_min : Z := (- 2 ^ 63)%Z.
Definition int64_max : Z := (2 ^ 63 - 1)%Z.

Definition in_int64 (z : Z) : Prop := (int64_min <= z <= int64_max)%Z.

Definition in_int64b (z : Z) : bool :=
  (int64_min <=? z)%Z && (z <=? int64_max)%Z.

(** Two's complement wrap-around of int64 arithmetic. *)
Definition wrap64 (z : Z) : Z := ((z + 2 ^ 63) mod 2 ^ 64 - 2 ^ 63)%Z.

(** [shape[i]]: indexing the shape tuple raises IndexError out of range. *)
Definition shape_at (a : ndarray) (i : nat) : result nat :=
  match shape a !! i with
  | Some n => Ok n
  | None => Raise IndexError
  end.

(** [np.asanyarray(None)]: a 0-d object array holding [None]. *)
Definition none_array : ndarray := mk_ndarray Object [] [ENone].

Definition atleast_1d (a : ndarray) : ndarray :=
  match shape a with
  | [] => mk_ndarray (dtype a) [1] (data a)
  | _ => a
  end.

Definition atleast_2d (a : ndarray) : ndarray :=
  match shape a with
  | [] => mk_ndarray (dtype a) [1; 1] (data a)
  | [n] => mk_ndarray (dtype a) [1; n] (data a)
  | _ => a
  end.

(** dtype promotion among the three modelled dtypes. *)
Definition promote (d1 d2 : np_dtype) : np_dtype :=
  match d1, d2 with
  | Object, _ | _, Object => Object
  | Float64, _ | _, Float64 => Float64
  | Int64, Int64 => Int64
  end.

Definition result_type (arrs : list ndarray) : np_dtype :=
  foldr (fun a d => promote (dtype a) d) Int64 arrs.

Section WithFloats.
Context `{Float64Ops}.

(** Casting an element up to the promoted dtype: an int becomes a float in
    a float64 result; into an object array elements go as they are. *)
Definition cast_elem (d : np_dtype) (x : elem) : elem :=
  match d, x with
  | Float64, EInt z => EFloat (float_of_int z)
  | _, _ => x
  end.

(** The [i]-th block of [c] consecutive elements. *)
Definition chunk (c i : nat) (l : list elem) : list elem :=
  take c (drop (i * c) l).

(** The arrays after the first must have its number of dimensions and its
    shape at every axis but [axis]; the first offender decides the
    message. *)
Fixpoint check_shapes (axis : nat) (s0 : list nat) (rest : list ndarray)
  : option exn :=
  match rest with
  | [] => None
  | a :: rest' =>
    if negb (ndim a =? length s0) then
      Some (ValueError "all the input arrays must have same number of dimensions")
    else if negb (bool_decide (<[axis:=0]> (shape a) = <[axis:=0]> s0)) then
      Some (ValueError "all the input array dimensions except for the concatenation axis must match exactly")
    else check_shapes axis s0 rest'
  end.

(** [np.concatenate(arrs, axis)]. The result is row-major again: for each
    index of the axes before [axis], the blocks of the inputs in order. *)
Definition concatenate (arrs : list ndarray) (axis : nat) : result ndarray :=
  match arrs with
  | [] => Raise (ValueError "need at least one array to concatenate")
  | a0 :: rest =>
    if ndim a0 =? 0 then
      Raise (ValueError "zero-dimensional arrays cannot be concatenated")
    else if ndim a0 <=? axis then Raise AxisError
    else
      match check_shapes axis (shape a0) rest with
      | Some e => Raise e
      | None =>
        let rt := result_type arrs in
        let total := sum_list (map (fun a => nth axis (shape a) 0) arrs) in
        let outer := size_of (take axis (shape a0)) in
        Ok (mk_ndarray rt (<[axis:=total]> (shape a0))
              (flat_map
                 (fun i =>
                    flat_map
                      (fun a => chunk (size_of (drop axis (shape a))) i
                                      (map (cast_elem rt) (data a)))
                      arrs)
                 (seq 0 outer)))
      end
  end.

(** [np.vstack(tup)] concatenates along axis 0 after [atleast_2d] on each
    element. *)
Definition vstack (tup : list ndarray) : result ndarray :=
  concatenate (map atleast_2d tup) 0.

(** [np.hstack(tup)]: along axis 0 when the first array is 1-d, along
    axis 1 otherwise. *)
Definition hstack (tup : list ndarray) : result ndarray :=
  let arrs := map atleast_1d tup in
  match arrs with
  | a0 :: _ => if ndim a0 =? 1 then concatenate arrs 0 else concatenate arrs 1
  | [] => concatenate arrs 1
  end.

(** [x + n] for one element and a Python int [n]: int64 arithmetic wraps,
    Python ints in an object array do not, [None + n] is a TypeError. *)
Definition add_elem (d : np_dtype) (n : Z) (x : elem) : result elem :=
  match x with
  | EInt z =>
    Ok (EInt (match d with Object => (z + n)%Z | _ => wrap64 (z + n) end))
  | EFloat b => Ok (EFloat (float_add b (float_of_int n)))
  | ENone => Raise TypeError
  end.

(** [a + n]: a new array of the same dtype and shape. *)
Definition add_scalar (a : ndarray) (n : Z) : result ndarray :=
  rbind (rmap (add_elem (dtype a) n) (data a))
        (fun d => Ok (mk_ndarray (dtype a) (shape a) d)).

Definition astype_int_elem (d : np_dtype) (x : elem) : result elem :=
  match x with
  | EInt z =>
    match d with
    | Object => if in_int64b z then Ok (EInt z) else Raise OverflowError
    | _ => Ok (EInt z)
    end
  | EFloat b =>
    match d with
    | Object => rbind (py_int_of_float b) (fun z => Ok (EInt z))
    | _ => Ok (EInt (int_of_float b))
    end
  | ENone => Raise TypeError
  end.

(** [a.astype(int)]: a new int64 array of the same shape. *)
Definition astype_int (a : ndarray) : result ndarray :=
  rbind (rmap (astype_int_elem (dtype a)) (data a))
        (fun d => Ok (mk_ndarray Int64 (shape a) d)).

End WithFloats.

(** [np.array(l, dtype=int)] for a list of Python ints. *)
Definition array_int (l : list nat) : ndarray :=
  mk_ndarray Int64 [length l] (map (fun i => EInt (Z.of_nat i)) l).

(** An array is well formed when it holds as many elements as its shape
    says and each of them fits its dtype. *)
Definition elem_fits (d : np_dtype) (x : elem) : Prop :=
  match d, x with
  | Int64, EInt z => in_int64 z
  | Float64, EFloat _ => True
  | Object, _ => True
  | _, _ => False
  end.

Definition wf_array (a : ndarray) : Prop :=
  length (data a) = size_of (shape a) /\ Forall (elem_fits (dtype a)) (data a).

End NumPy.

Import NumPy.

(** ** The object store *)

Module Store.

(** Arrays live in the store; an address is the position of an array in
    it. The modelled code only reads arrays and allocates new ones. *)
Abbreviation addr := nat (only parsing).
Abbreviation heap := (list ndarray) (only parsing).

(** A computation reads and extends the store and returns or raises. The
    store is kept when an exception is raised: what was allocated before
    stays allocated. *)
Definition M (A : Type) : Type := heap -> result A * heap.

Definition ret {A} (a : A) : M A := fun h => (Ok a, h).

Definition raise {A} (e : exn) : M A := fun h => (Raise e, h).

Definition bind {A B} (m : M A) (k : A -> M B) : M B :=
  fun h =>
    match m h with
    | (Ok a, h') => k a h'
    | (Raise e, h') => (Raise e, h')
    | (Stuck, h') => (Stuck, h')
    end.

Definition lift {A} (r : result A) : M A := fun h => (r, h).

(** Reading the array behind a reference. *)
Definition deref (a : addr) : M ndarray :=
  fun h =>
    match h !! a with
    | Some arr => (Ok arr, h)
    | None => (Stuck, h)
    end.

(** Allocating a new array object: it gets the next free address. *)
Definition alloc (arr : ndarray) : M addr :=
  fun h => (Ok (length h), h ++ [arr]).

Fixpoint mapM {A B} (f : A -> M B) (l : list A) : M (list B) :=
  match l with
  | [] => ret []
  | x :: l' =>
    bind (f x) (fun y => bind (mapM f l') (fun ys => ret (y :: ys)))
  end.

End Store.

Import Store.

Declare Scope py_scope.
Delimit Scope py_scope with py.
Notation "x <- m ;; k" := (bind m (fun x => k))
  (at level 100, m at next level, right associativity) : py_scope.

(** ** Python values passed to the constructors *)

(** An argument is [None], a NumPy array, or some other object. *)
Inductive value :=
| PyNone
| PyArray (a : addr)
| PyObject.

Definition is_not_None (v : value) : bool :=
  match v with PyNone => false | _ => true end.

Section Classes.
Context `{Float64Ops}.

Local Open Scope py_scope.

(** *** NumPy calls on store objects

    Each call reads its arguments and returns a newly allocated array. *)

(** An element of the sequence given to [np.vstack]: an array, or [None],
    which NumPy wraps as a 0-d object array. *)
Definition as_array (v : option addr) : M ndarray :=
  match v with
  | Some a => deref a
  | None => ret none_array
  end.

Definition np_vstack (tup : list (option addr)) : M addr :=
  arrs <- mapM as_array tup ;;
  r <- lift (vstack arrs) ;;
  alloc r.

Definition np_hstack (tup : list addr) : M addr :=
  arrs <- mapM deref tup ;;
  r <- lift (hstack arrs) ;;
  alloc r.

Definition np_add (a : addr) (n : nat) : M addr :=
  arr <- deref a ;;
  r <- lift (add_scalar arr (Z.of_nat n)) ;;
  alloc r.

Definition np_astype_int (a : addr) : M addr :=
  arr <- deref a ;;
  r <- lift (astype_int arr) ;;
  alloc r.

Definition np_array_int (l : list nat) : M addr := alloc (array_int l).

(** *** class GraphData *)

(** The attributes [__init__] sets. [num_edge_features] is [None] when the
    attribute was never assigned. *)
Record GraphData := mk_GraphData {
  node_features : addr;
  edge_index : addr;
  edge_features : option addr;
  graph_features : option addr;
  num_nodes : nat;
  num_node_features : nat;
  num_edges : nat;
  num_edge_features : option nat
}.

(** [isinstance(v, np.ndarray) is False] raises the given ValueError. *)
Definition expect_ndarray (v : value) (msg : string) : M addr :=
  match v with
  | PyArray a => ret a
  | _ => raise (ValueError msg)
  end.

(** [n, f = a.shape]: unpacking a tuple that has not exactly two items is
    a ValueError. *)
Definition unpack2 (s : list nat) : M (nat * nat) :=
  match s with
  | [n; f] => ret (n, f)
  | _ :: _ :: _ :: _ => raise (ValueError "too many values to unpack (expected 2)")
  | _ => raise (ValueError "not enough values to unpack (expected 2)")
  end.

(** [GraphData.__init__] (lines 57-86). *)
Definition GraphData_init
    (node_features edge_index edge_features graph_features : value)
  : M GraphData :=
  (* lines 58-59 *)
  nf <- expect_ndarray node_features "node_features must be np.ndarray." ;;
  (* lines 61-66 *)
  ei <- expect_ndarray edge_index "edge_index must be np.ndarray." ;;
  ei_arr <- deref ei ;;
  if negb (bool_decide (dtype ei_arr = Int64)) then
    raise (ValueError "edge_index.dtype must be np.int")
  else
  rows <- lift (shape_at ei_arr 0) ;;
  if negb (rows =? 2) then
    raise (ValueError "The shape of edge_index is [2, num_edges].")
  else
  (* lines 68-73 *)
  ef <- match edge_features with
        | PyNone => ret None
        | PyObject => raise (ValueError "edge_features must be np.ndarray or None.")
        | PyArray a =>
          ef_arr <- deref a ;;
          cols <- lift (shape_at ei_arr 1) ;;
          ef_rows <- lift (shape_at ef_arr 0) ;;
          if negb (cols =? ef_rows) then
            raise (ValueError "The first dimension of edge_features must be the same as the second dimension of edge_index.")
          else ret (Some a)
        end ;;
  (* lines 75-77 *)
  gf <- match graph_features with
        | PyNone => ret None
        | PyObject => raise (ValueError "graph_features must be np.ndarray or None.")
        | PyArray a => ret (Some a)
        end ;;
  (* line 83 *)
  nf_arr <- deref nf ;;
  nf_shape <- unpack2 (shape nf_arr) ;;
  let '(n, f) := nf_shape in
  (* line 84 *)
  e <- lift (shape_at ei_arr 1) ;;
  (* lines 85-86: the guard tests node_features, not edge_features *)
  nef <- (if is_not_None node_features then
            match ef with
            | None => raise AttributeError
            | Some a =>
              ef_arr <- deref a ;;
              k <- lift (shape_at ef_arr 1) ;;
              ret (Some k)
            end
          else ret None) ;;
  ret (mk_GraphData nf ei ef gf n f e nef).

(** *** class BatchGraphData(GraphData) *)

Record BatchGraphData := mk_BatchGraphData {
  graph : GraphData;
  graph_index : addr
}.

(** [graphs[0]]. *)
Definition first_graph (graphs : list GraphData) : M GraphData :=
  match graphs with
  | g :: _ => ret g
  | [] => raise IndexError
  end.

(** The loop of lines 186-188: [graph_index.extend([i] * num_nodes)] for
    [i, num_nodes] in [enumerate(num_nodes_list)], counting from [i]. *)
Fixpoint extend_graph_index (i : nat) (num_nodes_list : list nat) : list nat :=
  match num_nodes_list with
  | [] => []
  | n :: rest => replicate n i ++ extend_graph_index (S i) rest
  end.

(** [BatchGraphData.__init__] (lines 162-196). *)
Definition BatchGraphData_init (graphs : list GraphData) : M BatchGraphData :=
  (* line 163 *)
  batch_node_features <-
    np_vstack (map (fun g => Some (node_features g)) graphs) ;;
  (* lines 167-170 *)
  g0 <- first_graph graphs ;;
  batch_edge_features <-
    match edge_features g0 with
    | Some _ => a <- np_vstack (map edge_features graphs) ;; ret (PyArray a)
    | None => ret PyNone
    end ;;
  (* lines 172-176 *)
  g0 <- first_graph graphs ;;
  batch_graph_features <-
    match graph_features g0 with
    | Some _ => a <- np_vstack (map graph_features graphs) ;; ret (PyArray a)
    | None => ret PyNone
    end ;;
  (* lines 179-183 *)
  let num_nodes_list := map num_nodes graphs in
  shifted <-
    mapM (fun '(prev_num_node, g) => np_add (edge_index g) prev_num_node)
         (zip (0 :: removelast num_nodes_list) graphs) ;;
  stacked <- np_hstack shifted ;;
  batch_edge_index <- np_astype_int stacked ;;
  (* lines 186-189 *)
  gi <- np_array_int (extend_graph_index 0 num_nodes_list) ;;
  (* lines 191-196 *)
  g <- GraphData_init (PyArray batch_node_features) (PyArray batch_edge_index)
         batch_edge_features batch_graph_features ;;
  ret (mk_BatchGraphData g gi).

End Classes.

(** ** Graph records in a store *)

(** An argument refers to an object of the store. *)
Definition value_valid (h : heap) (v : value) : Prop :=
  match v with
  | PyArray a => is_Some (h !! a)
  | _ => True
  end.

(** A GraphRecord of the store [h]: what [GraphData(...)] returned for
    some arguments living in [h]. *)
Definition graph_record (h : heap) (g : GraphData) : Prop :=
  exists nf ei ef gf,
    value_valid h gf /\ GraphData_init nf ei ef gf h = (Ok g, h).

(** What the checks of [__init__] establish, spelled out. *)
Record graph_inv (h : heap) (g : GraphData) : Prop := mk_graph_inv {
  inv_nf : exists a, h !! node_features g = Some a
                     /\ shape a = [num_nodes g; num_node_features g];
  inv_ei : exists a, h !! edge_index g = Some a /\ dtype a = Int64
                     /\ shape a !! 0 = Some 2
                     /\ shape a !! 1 = Some (num_edges g);
  inv_ef : exists ea a k, edge_features g = Some ea /\ h !! ea = Some a
                     /\ shape a !! 0 = Some (num_edges g)
                     /\ shape a !! 1 = Some k
                     /\ num_edge_features g = Some k;
  inv_gf : forall ga, graph_features g = Some ga -> is_Some (h !! ga)
}.

Definition heap_wf (h : heap) : Prop := Forall wf_array h.

(** The true prefix offsets: the node counts of the graphs before. *)
Definition prefix_offset (num_nodes_list : list nat) (i : nat) : nat :=
  sum_list (take i num_nodes_list).

(** The attribute a constructor argument is stored as. *)
Definition opt_value (v : value) : option addr :=
  match v with PyArray a => Some a | _ => None end.

(** All entries of an edge index are node numbers below [n]. *)
Definition entries_in_range (arr : ndarray) (n : nat) : Prop :=
  Forall (fun x => exists z, x = EInt z /\ (0 <= z < Z.of_nat n)%Z) (data arr).

(** The array behind a reference, for references known to be valid. *)
Definition array_at (h : heap) (a : addr) : ndarray :=
  default none_array (h !! a).

(** What [np.vstack] sees of one element of its argument. *)
Definition as_array_val (h : heap) (v : option addr) : ndarray :=
  match v with
  | Some a => array_at h a
  | None => none_array
  end.

Definition valid_opt (h : heap) (v : option addr) : Prop :=
  match v with
  | Some a => is_Some (h !! a)
  | None => True
  end.

(** A computation only ever appends to the store. *)
Definition extends {A} (m : M A) : Prop :=
  forall h, exists new, (m h).2 = h ++ new.

Section Views.
Context `{Float64Ops}.

(** One element of the list comprehension of lines 180-182, as an array:
    the edge index of [pg.2] plus the number [pg.1] paired with it. *)
Definition shift_edge_index (h : heap) (pg : nat * GraphData) : result ndarray :=
  add_scalar (array_at h (edge_index pg.2)) (Z.of_nat pg.1).

(** The arrays a successful batching computes from the graphs of [h]:
    the stacked node, edge and graph features, the shifted edge indices,
    their horizontal stack and its int64 copy. *)
Record batch_arrays (h : heap) (gs : list GraphData)
    (r_nf r_ef : ndarray) (o_gf : option ndarray)
    (shifted : list ndarray) (r_h r_ei : ndarray) : Prop := mk_batch_arrays {
  ba_nf : vstack (map (fun g => array_at h (node_features g)) gs) = Ok r_nf;
  ba_ef : vstack (map (fun g => as_array_val h (edge_features g)) gs) = Ok r_ef;
  ba_gf : match head gs ≫= graph_features with
          | Some _ =>
            exists r, o_gf = Some r
              /\ vstack (map (fun g => as_array_val h (graph_features g)) gs) = Ok r
          | None => o_gf = None
          end;
  ba_shifted : rmap (shift_edge_index h)
                 (zip (0 :: removelast (map num_nodes gs)) gs) = Ok shifted;
  ba_h : hstack shifted = Ok r_h;
  ba_ei : astype_int r_h = Ok r_ei
}.

(** Where the batched record [b] holds them in the final store [h']. *)
Record batch_placed (h : heap) (gs : list GraphData) (b : BatchGraphData)
    (h' : heap) (r_nf r_ef : ndarray) (o_gf : option ndarray)
    (r_ei : ndarray) : Prop := mk_batch_placed {
  bp_prefix : exists new, h' = h ++ new;
  bp_nf : h' !! node_features (graph b) = Some r_nf;
  bp_ei : h' !! edge_index (graph b) = Some r_ei;
  bp_ef : exists ea, edge_features (graph b) = Some ea
            /\ h' !! ea = Some r_ef /\ length h <= ea;
  bp_gf : match o_gf with
          | Some r => exists ga, graph_features (graph b) = Some ga
                        /\ h' !! ga = Some r /\ length h <= ga
          | None => graph_features (graph b) = None
          end;
  bp_gi : h' !! graph_index b
          = Some (array_int (extend_graph_index 0 (map num_nodes gs)));
  bp_fresh : length h <= node_features (graph b)
             /\ length h <= edge_index (graph b)
             /\ length h <= graph_index b;
  bp_inv : graph_inv h' (graph b)
}.

(** [np.vstack] accepts the arrays. *)
Definition stackable (arrs : list ndarray) : Prop :=
  exists r, vstack arrs = Ok r.

End Views.

(** The array references a graph record holds, and those of a batched
    record. *)
Definition graph_arrays (g : GraphData) : list addr :=
  node_features g :: edge_index g
    :: option_list (edge_features g) ++ option_list (graph_features g).

Definition batch_refs (b : BatchGraphData) : list addr :=
  graph_arrays (graph b) ++ [graph_index b].

(** The array an attribute of the returned object refers to in the final
    store, when the run returned an object. *)
Definition field_array {A} (f : A -> addr) (r : result A * heap)
  : option ndarray :=
  match r with
  | (Ok x, h') => h' !! f x
  | _ => None
  end.

Definition field_array_opt {A} (f : A -> option addr) (r : result A * heap)
  : option (option ndarray) :=
  match r with
  | (Ok x, h') =>
    match f x with
    | Some a => Some <$> (h' !! a)
    | None => Some None
    end
  | _ => None
  end.

(** ** Sample stores and records *)

Definition ints (s : list nat) (l : list Z) : ndarray :=
  mk_ndarray Int64 s (map EInt l).

Definition floats (s : list nat) (l : list Z) : ndarray :=
  mk_ndarray Float64 s (map EFloat l).

(** A stand-in for the float interface where no float is computed. *)
Definition no_float_ops : Float64Ops :=
  {| float_of_int := fun _ => 0%Z;
     float_add := fun _ _ => 0%Z;
     int_of_float := fun _ => 0%Z;
     py_int_of_float := fun _ => Raise OverflowError |}.

(** A store holding the arrays of a few graphs:
    - 0, 1, 2: a graph of 3 nodes with edges [[0,1],[1,2]];
    - 3, 4, 5: a graph of 2 nodes with the edge [[0],[1]];
    - 6: a graph feature vector of shape (2,);
    - 7, 8, 9: a graph without nodes and edges;
    - 10: an edge index [[5],[7]];
    - 11, 12: the arrays of the example in the docstring of GraphData;
    - 13: an int64 array of shape (3, 2);
    - 14, 15, 16: a graph of 2 nodes with the edge [[1],[0]]. *)
Definition sample_heap : heap :=
  [ floats [3; 1] [10; 11; 12]%Z;
    ints [2; 2] [0; 1; 1; 2]%Z;
    floats [2; 1] [7; 8]%Z;
    floats [2; 1] [20; 21]%Z;
    ints [2; 1] [0; 1]%Z;
    floats [1; 1] [9]%Z;
    floats [2] [5; 6]%Z;
    floats [0; 1] [];
    ints [2; 0] [];
    floats [0; 1] [];
    ints [2; 1] [5; 7]%Z;
    mk_ndarray Float64 [5; 10] (replicate 50 (EFloat 0));
    ints [2; 5] [0; 1; 2; 2; 3; 1; 2; 3; 3; 4]%Z;
    ints [3; 2] [0; 1; 1; 2; 2; 0]%Z;
    floats [2; 1] [30; 31]%Z;
    ints [2; 1] [1; 0]%Z;
    floats [1; 1] [4]%Z ].

Definition sample_g0 : GraphData := mk_GraphData 0 1 (Some 2) None 3 1 2 (Some 1).
Definition sample_g1 : GraphData := mk_GraphData 3 4 (Some 5) None 2 1 1 (Some 1).
Definition sample_g2 : GraphData := mk_GraphData 14 15 (Some 16) None 2 1 1 (Some 1).
Definition sample_g1_vec : GraphData :=
  mk_GraphData 3 4 (Some 5) (Some 6) 2 1 1 (Some 1).
Definition sample_empty : GraphData :=
  mk_GraphData 7 8 (Some 9) None 0 1 0 (Some 1).
Definition sample_out_of_range : GraphData :=
  mk_GraphData 3 10 (Some 5) None 2 1 1 (Some 1).

(** ** Further notions *)

(** A computation leaves the store as it is, whatever its outcome. *)
Definition readonly {A} (m : M A) : Prop :=
  forall h, (m h).2 = h.

(** The number lines 180-182 pair with graph [i]: entry [i] of
    [[0] + num_nodes_list[:-1]]. *)
Definition prev_num_node (num_nodes_list : list nat) (i : nat) : nat :=
  nth i (0 :: removelast num_nodes_list) 0.


(** ** Conversion to PyTorch Geometric and DGL

    [to_pyg_graph] and [to_dgl_graph] call PyTorch, PyTorch Geometric and
    DGL. What these libraries compute is not modelled: whether they can
    be imported and what their calls return or raise is an interface. *)

(** An exception of the conversion methods: one of the exceptions above,
    a NameError, or an exception raised inside an external library. *)
Inductive conv_exn :=
| Std (e : exn)
| NameError (name : string)
| External (what : string).

(** The outcome of a conversion; [Dangling] as [Stuck] above. *)
Inductive outcome (A : Type) :=
| Returns (a : A)
| Raises (e : conv_exn)
| Dangling.
Arguments Returns {A} a.
Arguments Raises {A} e.
Arguments Dangling {A}.

Definition obind {A B} (o : outcome A) (k : A -> outcome B) : outcome B :=
  match o with
  | Returns a => k a
  | Raises e => Raises e
  | Dangling => Dangling
  end.

(** What an import statement does: it binds the name, raises
    ModuleNotFoundError, or raises something else. *)
Inductive import_outcome :=
| Imported
| ModuleNotFound
| ImportFailed (e : conv_exn).

Class Libraries := {
  tensor : Type;
  pyg_data : Type;
  dgl_graph : Type;
  (** [import torch] *)
  import_torch : import_outcome;
  (** [from torch_geometric.data import Data] *)
  import_Data : import_outcome;
  (** [from dgl import DGLGraph] *)
  import_DGLGraph : import_outcome;
  (** [torch.from_numpy(a)] for the array object at an address *)
  from_numpy : addr -> ndarray -> outcome tensor;
  (** [Data(x=..., edge_index=..., edge_attr=...)] *)
  Data : tensor -> tensor -> option tensor -> outcome pyg_data;
  (** [DGLGraph()], [g.add_nodes(n)], [g.add_edges(u, v)],
      [g.ndata[key] = t], [g.edata[key] = t]; the graph object is passed
      along *)
  DGLGraph : outcome dgl_graph;
  add_nodes : dgl_graph -> nat -> outcome dgl_graph;
  add_edges : dgl_graph -> ndarray -> ndarray -> outcome dgl_graph;
  set_ndata : dgl_graph -> string -> tensor -> outcome dgl_graph;
  set_edata : dgl_graph -> string -> tensor -> outcome dgl_graph
}.

Definition of_result {A} (r : result A) : outcome A :=
  match r with
  | Ok a => Returns a
  | Raise e => Raises (Std e)
  | Stuck => Dangling
  end.

Definition read (h : heap) (a : addr) : outcome ndarray :=
  match h !! a with
  | Some arr => Returns arr
  | None => Dangling
  end.

(** [a[i]] for an integer [i]: the [i]-th subarray along the first axis;
    IndexError for a 0-d array and for an index out of bounds. *)
Definition getitem (a : ndarray) (i : nat) : result ndarray :=
  match shape a with
  | [] => Raise IndexError
  | n :: rest =>
    if i <? n then
      Ok (mk_ndarray (dtype a) rest (chunk (size_of rest) i (data a)))
    else Raise IndexError
  end.

(** The names bound at the top level of [graph_data.py]: its two import
    statements and its two classes. *)
Definition module_globals : list string :=
  ["Optional"; "Sequence"; "np"; "GraphData"; "BatchGraphData"]%string.

(** Reading a name inside a method: it is found among the names the
    method binds or among the module's; otherwise (no builtin is called
    [torch], [Data] or [DGLGraph]) a NameError is raised. *)
Definition load_name (locals : list string) (name : string) : outcome unit :=
  if bool_decide (name ∈ locals ++ module_globals) then Returns tt
  else Raises (NameError name).

(** The [try: import ... except ModuleNotFoundError: raise ValueError(msg)]
    of both methods: the imports run in order; a ModuleNotFoundError
    becomes the ValueError, any other exception goes through. *)
Fixpoint try_import (imports : list import_outcome) (msg : string)
  : outcome unit :=
  match imports with
  | [] => Returns tt
  | Imported :: rest => try_import rest msg
  | ModuleNotFound :: _ => Raises (Std (ValueError msg))
  | ImportFailed e :: _ => Raises e
  end.

Section Conversions.
Context `{Libraries}.

(** [torch.from_numpy(self.<attribute>)] inside a method with the given
    local names. *)
Definition torch_from_numpy (locals : list string) (h : heap) (a : addr)
  : outcome tensor :=
  obind (load_name locals "torch") (fun _ =>
  obind (read h a) (fun arr =>
  from_numpy a arr)).

(** [GraphData.to_pyg_graph] (lines 96-108). *)
Definition to_pyg_graph (h : heap) (self : GraphData) : outcome pyg_data :=
  (* lines 96-101 *)
  obind (try_import [import_torch; import_Data]
           "This function requires PyTorch Geometric to be installed.")
    (fun _ =>
  let locals := ["self"; "torch"; "Data"]%string in
  (* lines 103-108 *)
  obind (load_name locals "Data") (fun _ =>
  obind (torch_from_numpy locals h (node_features self)) (fun x =>
  obind (torch_from_numpy locals h (edge_index self)) (fun ei =>
  obind (match edge_features self with
         | None => Returns None
         | Some a =>
           obind (torch_from_numpy locals h a) (fun t => Returns (Some t))
         end) (fun edge_attr =>
  Data x ei edge_attr))))).

(** [GraphData.to_dgl_graph] (lines 118-131). *)
Definition to_dgl_graph (h : heap) (self : GraphData) : outcome dgl_graph :=
  (* lines 118-121 *)
  obind (try_import [import_DGLGraph]
           "This function requires DGL to be installed.") (fun _ =>
  let locals := ["self"; "DGLGraph"; "g"]%string in
  (* line 123 *)
  obind (load_name locals "DGLGraph") (fun _ =>
  obind DGLGraph (fun g =>
  (* line 124 *)
  obind (add_nodes g (num_nodes self)) (fun g =>
  (* line 125 *)
  obind (read h (edge_index self)) (fun ei =>
  obind (of_result (getitem ei 0)) (fun u =>
  obind (of_result (getitem ei 1)) (fun v =>
  obind (add_edges g u v) (fun g =>
  (* line 126 *)
  obind (torch_from_numpy locals h (node_features self)) (fun t =>
  obind (set_ndata g "x" t) (fun g =>
  (* lines 128-129 *)
  obind (match edge_features self with
         | Some a =>
           obind (torch_from_numpy locals h a) (fun t =>
           set_edata g "edge_attr" t)
         | None => Returns g
         end) (fun g =>
  (* line 131 *)
  Returns g))))))))))).

End Conversions.

(** Libraries that are all installed and whose calls return: a tensor is
    the address of the array it shares its memory with. *)
Definition sample_libraries : Libraries :=
  {| tensor := addr;
     pyg_data := addr * addr * option addr;
     dgl_graph := unit;
     import_torch := Imported;
     import_Data := Imported;
     import_DGLGraph := Imported;
     from_numpy := fun a _ => Returns a;
     Data := fun x ei ea => Returns (x, ei, ea);
     DGLGraph := Returns tt;
     add_nodes := fun g _ => Returns g;
     add_edges := fun g _ _ => Returns g;
     set_ndata := fun g _ _ => Returns g;
     set_edata := fun g _ _ => Returns g |}.

(** An installation without PyTorch, PyTorch Geometric and DGL. *)
Definition no_libraries : Libraries :=
  {| tensor := addr;
     pyg_data := addr * addr * option addr;
     dgl_graph := unit;
     import_torch := ModuleNotFound;
     import_Data := ModuleNotFound;
     import_DGLGraph := ModuleNotFound;
     from_numpy := fun a _ => Returns a;
     Data := fun x ei ea => Returns (x, ei, ea);
     DGLGraph := Returns tt;
     add_nodes := fun g _ => Returns g;
     add_edges := fun g _ _ => Returns g;
     set_ndata := fun g _ _ => Returns g;
     set_edata := fun g _ _ => Returns g |}.

(** A store with arrays of unusual rank:
    - 0: node features of shape (2, 1); 1: a 0-d int64 array;
    - 2: an int64 array of shape (2,); 3: the edge index [[0],[1]];
    - 4: edge features of shape (1,); 5: node features of shape (3,);
    - 6: edge features of shape (1, 1); 7: node features of shape (2, 3). *)
Definition rank_heap : heap :=
  [ floats [2; 1] [1; 2]%Z;
    ints [] [7]%Z;
    ints [2] [0; 1]%Z;
    ints [2; 1] [0; 1]%Z;
    floats [1] [9]%Z;
    floats [3] [1; 2; 3]%Z;
    floats [1; 1] [9]%Z;
    floats [2; 3] [1; 2; 3; 4; 5; 6]%Z ].



(** ** The monad: inversion of successful runs *)

Section MonadLemmas.

Lemma ret_Ok {A} (a b : A) h h' : ret a h = (Ok b, h') -> b = a /\ h' = h.
Proof. unfold ret. intros [= -> ->]. done. Qed.

Lemma raise_Ok {A} e (b : A) h h' : raise e h = (Ok b, h') -> False.
Proof. unfold raise. intros [=]. Qed.

Lemma lift_Ok {A} (r : result A) b h h' :
  lift r h = (Ok b, h') -> r = Ok b /\ h' = h.
Proof. unfold lift. intros [= -> ->]. done. Qed.

Lemma deref_Ok a arr h h' :
  deref a h = (Ok arr, h') -> h !! a = Some arr /\ h' = h.
Proof.
  unfold deref. destruct (h !! a) as [x|]; intros [=]. by subst.
Qed.

Lemma alloc_Ok arr a h h' :
  alloc arr h = (Ok a, h') -> a = length h /\ h' = h ++ [arr].
Proof. unfold alloc. intros [= <- <-]. done. Qed.

Lemma bind_Ok {A B} (m : M A) (k : A -> M B) h b h' :
  bind m k h = (Ok b, h') ->
  exists a h1, m h = (Ok a, h1) /\ k a h1 = (Ok b, h').
Proof.
  unfold bind. destruct (m h) as [[a|e|] h1]; intros E; try discriminate.
  eauto.
Qed.

Lemma rbind_Ok {A B} (r : result A) (k : A -> result B) b :
  rbind r k = Ok b -> exists a, r = Ok a /\ k a = Ok b.
Proof. destruct r; simpl; intros E; try discriminate. eauto. Qed.

Lemma rmap_Ok {A B} (f : A -> result B) l ys :
  rmap f l = Ok ys -> Forall2 (fun x y => f x = Ok y) l ys.
Proof.
  revert ys. induction l as [|x l IH]; simpl; intros ys E.
  - injection E as <-. constructor.
  - apply rbind_Ok in E as (y & Ey & E).
    apply rbind_Ok in E as (ys' & Eys & E). injection E as <-.
    constructor; auto.
Qed.

Lemma rmap_Ok_intro {A B} (f : A -> result B) l ys :
  Forall2 (fun x y => f x = Ok y) l ys -> rmap f l = Ok ys.
Proof.
  induction 1 as [|x y l ys E _ IH]; simpl; [done|]. by rewrite E, IH.
Qed.

End MonadLemmas.

(** Breaks a successful run of a monadic program into its steps. *)
Ltac inv_M :=
  repeat match goal with
  | E : bind _ _ _ = (Ok _, _) |- _ =>
    apply bind_Ok in E; destruct E as (? & ? & ? & ?)
  | E : ret _ _ = (Ok _, _) |- _ => apply ret_Ok in E; destruct E; subst
  | E : raise _ _ = (Ok _, _) |- _ => apply raise_Ok in E; destruct E
  | E : lift _ _ = (Ok _, _) |- _ => apply lift_Ok in E; destruct E; subst
  | E : deref _ _ = (Ok _, _) |- _ => apply deref_Ok in E; destruct E; subst
  | E : alloc _ _ = (Ok _, _) |- _ => apply alloc_Ok in E; destruct E; subst
  | E : (if ?c then _ else _) _ = (Ok _, _) |- _ => destruct c eqn:?
  | E : (let '(_, _) := ?p in _) _ = (Ok _, _) |- _ => destruct p eqn:?
  end.

(** Evaluates a constructor run whose lookups are known. *)
Ltac run_init :=
  unfold GraphData_init, bind, expect_ndarray, ret, raise, deref, lift,
    shape_at, unpack2, is_not_None;
  repeat (first
    [ match goal with
      | E : ?x = _ |- context [match ?x with _ => _ end] => rewrite E
      end
    | rewrite Nat.eqb_refl
    | progress simpl ]).

Section GraphDataLemmas.

Lemma shape_at_Ok a i n : shape_at a i = Ok n <-> shape a !! i = Some n.
Proof.
  unfold shape_at. destruct (shape a !! i); split; intros [=]; by subst.
Qed.

Lemma unpack2_Ok s n f h h' :
  unpack2 s h = (Ok (n, f), h') -> s = [n; f] /\ h' = h.
Proof.
  destruct s as [|? [|? [|? ?]]]; simpl; intros E;
    try (by apply raise_Ok in E).
  apply ret_Ok in E as [[= -> ->] ->]. done.
Qed.

Lemma expect_ndarray_Ok v msg a h h' :
  expect_ndarray v msg h = (Ok a, h') -> v = PyArray a /\ h' = h.
Proof.
  destruct v; simpl; intros E; try (by apply raise_Ok in E).
  apply ret_Ok in E as [-> ->]. done.
Qed.

(** A successful construction leaves the store as it was, stores its
    arguments and has checked [graph_inv]. *)
Lemma GraphData_init_Ok nf ei ef gf h g h' :
  GraphData_init nf ei ef gf h = (Ok g, h') ->
  h' = h /\ nf = PyArray (node_features g) /\ ei = PyArray (edge_index g)
  /\ (exists ea, ef = PyArray ea /\ edge_features g = Some ea)
  /\ match gf with
     | PyNone => graph_features g = None
     | PyArray a => graph_features g = Some a
     | PyObject => False
     end
  /\ (value_valid h gf -> graph_inv h g).
Proof.
  unfold GraphData_init. intros E.
  repeat (apply bind_Ok in E; destruct E as (? & ? & ? & E)).
  repeat match goal with
  | E : expect_ndarray _ _ _ = _ |- _ =>
    apply expect_ndarray_Ok in E; destruct E; subst
  end.
  simpl in *. inv_M.
  repeat match goal with
  | E : unpack2 _ _ = _ |- _ => apply unpack2_Ok in E; destruct E; subst
  | E : shape_at _ _ = Ok _ |- _ => apply shape_at_Ok in E
  end.
  destruct ef as [|ea|]; inv_M; try discriminate.
  repeat match goal with
  | E : shape_at _ _ = Ok _ |- _ => apply shape_at_Ok in E
  end.
  match goal with
  | E : match gf with _ => _ end _ = (Ok ?o, ?h1) |- _ =>
    assert (Hgf : o = match gf with PyArray a => Some a | _ => None end
                  /\ gf <> PyObject /\ h1 = h)
      by (destruct gf; inv_M; done);
    clear E; destruct Hgf as (-> & Hgf & ->)
  end.
  simpl in *. inv_M.
  repeat match goal with
  | E : shape_at _ _ = Ok _ |- _ => apply shape_at_Ok in E
  | E : negb _ = false |- _ => apply negb_false_iff in E
  | E : (_ =? _) = true |- _ => apply Nat.eqb_eq in E
  | E : bool_decide _ = true |- _ => apply bool_decide_eq_true in E
  end.
  subst. simplify_eq.
  split; [done|]. split; [done|]. split; [done|]. split; [eauto|].
  split; [by destruct gf|].
  intros Hv. constructor; simpl; eauto 10.
  intros ga Hga. destruct gf; simplify_eq. done.
Qed.

End GraphDataLemmas.

Section GraphDataRuns.

(** The checks of [__init__] are also sufficient: arguments that pass them
    give the record. *)
Lemma GraphData_init_intro h nf ei ea gf nfa eia efa n f e k :
  h !! nf = Some nfa -> shape nfa = [n; f] ->
  h !! ei = Some eia -> dtype eia = Int64 ->
  shape eia !! 0 = Some 2 -> shape eia !! 1 = Some e ->
  h !! ea = Some efa -> shape efa !! 0 = Some e -> shape efa !! 1 = Some k ->
  gf <> PyObject ->
  GraphData_init (PyArray nf) (PyArray ei) (PyArray ea) gf h
  = (Ok (mk_GraphData nf ei (Some ea) (opt_value gf) n f e (Some k)), h).
Proof.
  intros Hnf Snf Hei Dei S0 S1 Hea T0 T1 Hgf.
  run_init. rewrite bool_decide_eq_true_2 by done. run_init.
  destruct gf; [| |done]; run_init; done.
Qed.

(** Without edge features the constructor cannot return: whatever passes
    the checks of lines 58-77 reaches line 86 and reads [None.shape]. *)
Lemma GraphData_init_no_edge_features nf ei gf h g h' :
  GraphData_init nf ei PyNone gf h <> (Ok g, h').
Proof.
  intros E. apply GraphData_init_Ok in E as (_ & _ & _ & (ea & [=] & _) & _).
Qed.

Lemma GraphData_init_no_edge_features_raises h nf ei gf nfa eia n f e :
  h !! nf = Some nfa -> shape nfa = [n; f] ->
  h !! ei = Some eia -> dtype eia = Int64 ->
  shape eia !! 0 = Some 2 -> shape eia !! 1 = Some e ->
  gf <> PyObject ->
  GraphData_init (PyArray nf) (PyArray ei) PyNone gf h
  = (Raise AttributeError, h).
Proof.
  intros Hnf Snf Hei Dei S0 S1 Hgf.
  run_init. rewrite bool_decide_eq_true_2 by done. run_init.
  destruct gf; [| |done]; run_init; done.
Qed.

(** A record of the store satisfies the invariant of its checks. *)
Lemma graph_record_inv h g : graph_record h g -> graph_inv h g.
Proof.
  intros (nf & ei & ef & gf & Hv & E).
  apply GraphData_init_Ok in E as (_ & _ & _ & _ & _ & Hinv). auto.
Qed.

(** And a record satisfying it is what the constructor returns for its
    own fields. *)
Lemma graph_inv_record h g : graph_inv h g -> graph_record h g.
Proof.
  intros [(nfa & Hnf & Snf) (eia & Hei & Dei & S0 & S1)
          (ea & efa & k & Hef & Hea & T0 & T1 & Hk) Hgf].
  exists (PyArray (node_features g)), (PyArray (edge_index g)), (PyArray ea),
    (match graph_features g with Some a => PyArray a | None => PyNone end).
  split.
  - destruct (graph_features g) as [ga|] eqn:E; simpl; auto.
  - erewrite GraphData_init_intro by (try eassumption; by destruct (graph_features g)).
    destruct g; simpl in *; subst. do 3 f_equal. by destruct graph_features0.
Qed.

End GraphDataRuns.

(** ** The store only grows *)

Section Extends.

Lemma extends_ret {A} (a : A) : extends (ret a).
Proof. intros h. exists []. simpl. by rewrite app_nil_r. Qed.

Lemma extends_raise {A} e : extends (@raise A e).
Proof. intros h. exists []. simpl. by rewrite app_nil_r. Qed.

Lemma extends_lift {A} (r : result A) : extends (lift r).
Proof. intros h. exists []. simpl. by rewrite app_nil_r. Qed.

Lemma extends_deref a : extends (deref a).
Proof.
  intros h. exists []. unfold deref. rewrite app_nil_r.
  by destruct (h !! a).
Qed.

Lemma extends_alloc arr : extends (alloc arr).
Proof. intros h. by exists [arr]. Qed.

Lemma extends_bind {A B} (m : M A) (k : A -> M B) :
  extends m -> (forall a, extends (k a)) -> extends (bind m k).
Proof.
  intros Hm Hk h. unfold bind. destruct (Hm h) as [n1 E1].
  destruct (m h) as [[a|e|] h1]; simpl in *; subst; eauto.
  destruct (Hk a (h ++ n1)) as [n2 E2]. exists (n1 ++ n2).
  by rewrite E2, app_assoc.
Qed.

Lemma extends_mapM {A B} (f : A -> M B) l :
  (forall x, extends (f x)) -> extends (mapM f l).
Proof.
  intros Hf. induction l as [|x l IH]; simpl.
  - apply extends_ret.
  - apply extends_bind; [done|]. intros y.
    apply extends_bind; [done|]. intros ys. apply extends_ret.
Qed.

End Extends.

(** Proves that a program built from the primitives extends the store. *)
Ltac solve_extends :=
  repeat first
    [ apply extends_ret | apply extends_raise | apply extends_lift
    | apply extends_deref | apply extends_alloc
    | apply extends_bind; [|intros ?]
    | apply extends_mapM; intros ?
    | match goal with
      | |- extends (match ?x with _ => _ end) => destruct x
      | |- extends (if ?c then _ else _) => destruct c
      | |- extends (let '(_, _) := ?p in _) => destruct p
      end ].

Section ExtendsClasses.
Context `{Float64Ops}.

Lemma extends_as_array v : extends (as_array v).
Proof. unfold as_array. solve_extends. Qed.

Lemma extends_np_vstack tup : extends (np_vstack tup).
Proof. unfold np_vstack. solve_extends. apply extends_as_array. Qed.

Lemma extends_np_hstack tup : extends (np_hstack tup).
Proof. unfold np_hstack. solve_extends. Qed.

Lemma extends_np_add a n : extends (np_add a n).
Proof. unfold np_add. solve_extends. Qed.

Lemma extends_np_astype_int a : extends (np_astype_int a).
Proof. unfold np_astype_int. solve_extends. Qed.

Lemma extends_GraphData_init nf ei ef gf :
  extends (GraphData_init nf ei ef gf).
Proof.
  unfold GraphData_init, expect_ndarray, unpack2. solve_extends.
Qed.

Lemma extends_BatchGraphData_init graphs :
  extends (BatchGraphData_init graphs).
Proof.
  unfold BatchGraphData_init, first_graph, np_array_int.
  repeat first
    [ apply extends_np_vstack | apply extends_np_hstack
    | apply extends_np_add | apply extends_np_astype_int
    | apply extends_GraphData_init
    | apply extends_ret | apply extends_raise | apply extends_alloc
    | apply extends_bind; [|intros ?]
    | apply extends_mapM; intros ?
    | match goal with
      | |- extends (match ?x with _ => _ end) => destruct x
      | |- extends (let '(_, _) := ?p in _) => destruct p
      end ].
Qed.

End ExtendsClasses.

(** ** NumPy calls on a store whose references are valid *)

Section Runs.
Context `{Float64Ops}.

Lemma array_at_lookup h a arr : h !! a = Some arr -> array_at h a = arr.
Proof. unfold array_at. by intros ->. Qed.

Lemma lookup_array_at h a : is_Some (h !! a) -> h !! a = Some (array_at h a).
Proof. intros [arr E]. by rewrite (array_at_lookup _ _ _ E). Qed.

Lemma array_at_app h new a :
  is_Some (h !! a) -> array_at (h ++ new) a = array_at h a.
Proof.
  intros [arr E]. unfold array_at.
  by rewrite (lookup_app_l_Some _ _ _ _ E), E.
Qed.

Lemma as_array_val_app h new v :
  valid_opt h v -> as_array_val (h ++ new) v = as_array_val h v.
Proof. destruct v; simpl; [apply array_at_app|done]. Qed.

Lemma valid_opt_app h new v : valid_opt h v -> valid_opt (h ++ new) v.
Proof.
  destruct v as [a|]; simpl; [|done]. intros [arr E].
  exists arr. by apply lookup_app_l_Some.
Qed.

Lemma mapM_deref_run l h :
  Forall (fun a => is_Some (h !! a)) l ->
  mapM deref l h = (Ok (map (array_at h) l), h).
Proof.
  induction 1 as [|a l Ha _ IH]; simpl; [done|].
  unfold bind. unfold deref at 1. rewrite (lookup_array_at _ _ Ha), IH. done.
Qed.

Lemma mapM_as_array_run tup h :
  Forall (valid_opt h) tup ->
  mapM as_array tup h = (Ok (map (as_array_val h) tup), h).
Proof.
  induction 1 as [|v l Hv _ IH]; simpl; [done|].
  unfold bind. destruct v as [a|]; simpl in *.
  - unfold deref. rewrite (lookup_array_at _ _ Hv), IH. done.
  - unfold ret at 1. rewrite IH. done.
Qed.

Lemma np_vstack_run tup h :
  Forall (valid_opt h) tup ->
  np_vstack tup h = bind (lift (vstack (map (as_array_val h) tup))) alloc h.
Proof.
  intros Hv. unfold np_vstack, bind at 1. by rewrite mapM_as_array_run.
Qed.

Lemma np_hstack_run tup h :
  Forall (fun a => is_Some (h !! a)) tup ->
  np_hstack tup h = bind (lift (hstack (map (array_at h) tup))) alloc h.
Proof.
  intros Hv. unfold np_hstack, bind at 1. by rewrite mapM_deref_run.
Qed.

Lemma np_add_run a n h :
  is_Some (h !! a) ->
  np_add a n h = bind (lift (add_scalar (array_at h a) (Z.of_nat n))) alloc h.
Proof.
  intros Hv. unfold np_add, bind at 1, deref.
  by rewrite (lookup_array_at _ _ Hv).
Qed.

Lemma np_astype_int_run a h :
  is_Some (h !! a) ->
  np_astype_int a h = bind (lift (astype_int (array_at h a))) alloc h.
Proof.
  intros Hv. unfold np_astype_int, bind at 1, deref.
  by rewrite (lookup_array_at _ _ Hv).
Qed.

(** A pure result followed by an allocation. *)
Lemma lift_alloc_Ok (r : result ndarray) h a h' :
  bind (lift r) alloc h = (Ok a, h') ->
  exists arr, r = Ok arr /\ a = length h /\ h' = h ++ [arr].
Proof. intros E. inv_M. eauto. Qed.

Lemma lift_alloc_run (r : result ndarray) arr h :
  r = Ok arr -> bind (lift r) alloc h = (Ok (length h), h ++ [arr]).
Proof. by intros ->. Qed.

Lemma mapM_np_add_run h l : forall pre arrs,
  Forall (fun pg : nat * GraphData => is_Some (h !! edge_index pg.2)) l ->
  rmap (shift_edge_index h) l = Ok arrs ->
  mapM (fun '(prev_num_node, g) => np_add (edge_index g) prev_num_node) l
       (h ++ pre)
  = (Ok (seq (length (h ++ pre)) (length arrs)), h ++ pre ++ arrs).
Proof.
  induction l as [|[p g] l IH]; intros pre arrs Hv E; simpl in *.
  - injection E as <-. unfold ret. by rewrite !app_nil_r.
  - apply rbind_Ok in E as (y & Ey & E).
    apply rbind_Ok in E as (ys & Eys & E). injection E as <-.
    apply Forall_cons in Hv as [Hg Hv]. simpl in Hg.
    unfold bind at 1. rewrite np_add_run
      by (destruct Hg as [x Hx]; exists x; by apply lookup_app_l_Some).
    rewrite array_at_app by done.
    unfold shift_edge_index in Ey. simpl in Ey.
    rewrite (lift_alloc_run _ _ _ Ey).
    rewrite <- app_assoc. unfold bind. rewrite (IH _ _ Hv Eys).
    unfold ret. simpl. rewrite !length_app. simpl.
    do 2 f_equal.
    + f_equal. f_equal. lia.
    + by rewrite <- !app_assoc.
Qed.

Lemma mapM_np_add_Ok h l : forall pre addrs h',
  Forall (fun pg : nat * GraphData => is_Some (h !! edge_index pg.2)) l ->
  mapM (fun '(prev_num_node, g) => np_add (edge_index g) prev_num_node) l
       (h ++ pre) = (Ok addrs, h') ->
  exists arrs, rmap (shift_edge_index h) l = Ok arrs.
Proof.
  induction l as [|[p g] l IH]; intros pre addrs h' Hv E; simpl in *.
  - eauto.
  - apply Forall_cons in Hv as [Hg Hv]. simpl in Hg.
    apply bind_Ok in E as (a & h1 & E1 & E).
    apply bind_Ok in E as (ys & h2 & E2 & E).
    rewrite np_add_run in E1
      by (destruct Hg as [x Hx]; exists x; by apply lookup_app_l_Some).
    rewrite array_at_app in E1 by done.
    apply lift_alloc_Ok in E1 as (arr & Ea & -> & ->).
    rewrite <- app_assoc in E2.
    destruct (IH _ _ _ Hv E2) as [arrs Earrs].
    exists (arr :: arrs). unfold shift_edge_index at 1. simpl.
    by rewrite Ea, Earrs.
Qed.

(** The references [mapM] returned are those of the arrays appended. *)
Lemma map_array_at_seq h arrs :
  map (array_at (h ++ arrs)) (seq (length h) (length arrs)) = arrs.
Proof.
  apply list_eq. intros i. rewrite list_lookup_fmap.
  destruct (decide (i < length arrs)) as [Hi|Hi].
  - rewrite lookup_seq_lt by done. simpl.
    destruct (lookup_lt_is_Some_2 arrs i Hi) as [x Hx]. rewrite Hx.
    f_equal. apply array_at_lookup.
    rewrite lookup_app_r by lia. by replace (length h + i - length h) with i by lia.
  - rewrite lookup_seq_ge by lia. simpl.
    symmetry. apply lookup_ge_None. lia.
Qed.

Lemma Forall_valid_seq (h arrs : heap) :
  Forall (fun a => is_Some ((h ++ arrs) !! a)) (seq (length h) (length arrs)).
Proof.
  apply Forall_forall. intros a Ha. apply elem_of_seq in Ha.
  apply lookup_lt_is_Some. rewrite length_app. lia.
Qed.

End Runs.

(** ** Shapes of concatenated arrays *)

Section NumPyFacts.
Context `{Float64Ops}.

Lemma check_shapes_None axis s0 rest :
  check_shapes axis s0 rest = None <->
  Forall (fun a => ndim a = length s0
                   /\ <[axis:=0]> (shape a) = <[axis:=0]> s0) rest.
Proof.
  induction rest as [|a rest IH]; simpl.
  - split; [constructor|done].
  - destruct (ndim a =? length s0) eqn:E1; simpl.
    + apply Nat.eqb_eq in E1. case_bool_decide as E2; simpl.
      * rewrite IH. split; [by constructor|].
        intros HF. by apply Forall_cons in HF as [_ HF].
      * split; [done|]. intros HF. by apply Forall_cons in HF as [[_ ?] _].
    + apply Nat.eqb_neq in E1. split; [done|].
      intros HF. by apply Forall_cons in HF as [[? _] _].
Qed.

Lemma concatenate_Ok arrs axis r :
  concatenate arrs axis = Ok r ->
  exists a0 rest,
    arrs = a0 :: rest /\ axis < ndim a0
    /\ check_shapes axis (shape a0) rest = None
    /\ dtype r = result_type arrs
    /\ shape r
       = <[axis:=sum_list (map (fun a => nth axis (shape a) 0) arrs)]> (shape a0).
Proof.
  unfold concatenate. destruct arrs as [|a0 rest]; [done|].
  destruct (ndim a0 =? 0) eqn:E0; [done|].
  destruct (ndim a0 <=? axis) eqn:E1; [done|].
  destruct (check_shapes axis (shape a0) rest) eqn:E2; [done|].
  intros [= <-]. apply Nat.leb_gt in E1. exists a0, rest. done.
Qed.

Lemma concatenate_run a0 rest axis :
  axis < ndim a0 ->
  check_shapes axis (shape a0) rest = None ->
  exists r, concatenate (a0 :: rest) axis = Ok r.
Proof.
  intros Hax Hc. unfold concatenate.
  destruct (ndim a0 =? 0) eqn:E0; [apply Nat.eqb_eq in E0; lia|].
  destruct (ndim a0 <=? axis) eqn:E1; [apply Nat.leb_le in E1; lia|].
  rewrite Hc. eauto.
Qed.

(** Along the axis of concatenation the sizes add up. *)
Lemma concatenate_shape_axis arrs axis r :
  concatenate arrs axis = Ok r ->
  shape r !! axis
  = Some (sum_list (map (fun a => nth axis (shape a) 0) arrs)).
Proof.
  intros E. apply concatenate_Ok in E as (a0 & rest & -> & Hax & _ & _ & ->).
  by apply list_lookup_insert_eq.
Qed.

(** The other axes are those of the first array. *)
Lemma concatenate_shape_other arrs axis r i :
  concatenate arrs axis = Ok r -> i <> axis ->
  shape r !! i = (arrs !! 0) ≫= (fun a0 => shape a0 !! i).
Proof.
  intros E Hi. apply concatenate_Ok in E as (a0 & rest & -> & Hax & _ & _ & ->).
  simpl. by apply list_lookup_insert_ne.
Qed.

Lemma add_scalar_Ok a n r :
  add_scalar a n = Ok r ->
  dtype r = dtype a /\ shape r = shape a
  /\ Forall2 (fun x y => add_elem (dtype a) n x = Ok y) (data a) (data r).
Proof.
  unfold add_scalar. intros E. apply rbind_Ok in E as (d & Ed & [= <-]).
  simpl. auto using rmap_Ok.
Qed.

Lemma astype_int_Ok a r :
  astype_int a = Ok r ->
  dtype r = Int64 /\ shape r = shape a
  /\ Forall2 (fun x y => astype_int_elem (dtype a) x = Ok y) (data a) (data r).
Proof.
  unfold astype_int. intros E. apply rbind_Ok in E as (d & Ed & [= <-]).
  simpl. auto using rmap_Ok.
Qed.

Lemma atleast_2d_id a : 2 <= ndim a -> atleast_2d a = a.
Proof.
  unfold atleast_2d, ndim. destruct (shape a) as [|? [|? ?]]; simpl; [lia..|done].
Qed.

Lemma atleast_1d_id a : 1 <= ndim a -> atleast_1d a = a.
Proof.
  unfold atleast_1d, ndim. destruct (shape a); simpl; [lia|done].
Qed.

Lemma lookup_ndim a i n : shape a !! i = Some n -> i < ndim a.
Proof. apply lookup_lt_Some. Qed.

Lemma nth_lookup_shape a i n : shape a !! i = Some n -> nth i (shape a) 0 = n.
Proof. intros E. by apply nth_lookup_Some. Qed.

(** [np.vstack] on matrices: the row counts add up. *)
Lemma vstack_rows arrs r :
  Forall (fun a => 2 <= ndim a) arrs ->
  vstack arrs = Ok r ->
  shape r !! 0 = Some (sum_list (map (fun a => nth 0 (shape a) 0) arrs))
  /\ forall i, i <> 0 -> shape r !! i = (arrs !! 0) ≫= (fun a0 => shape a0 !! i).
Proof.
  intros H2 E. unfold vstack in E.
  assert (map atleast_2d arrs = arrs) as Hid.
  { clear E. induction H2 as [|a l Ha _ IH]; simpl; [done|].
    by rewrite atleast_2d_id, IH. }
  rewrite Hid in E. split.
  - by apply concatenate_shape_axis.
  - intros i Hi. by apply (concatenate_shape_other _ 0).
Qed.

(** [np.hstack] on arrays of two or more dimensions: the column counts
    add up. *)
Lemma hstack_cols arrs r :
  Forall (fun a => 2 <= ndim a) arrs ->
  hstack arrs = Ok r ->
  shape r !! 1 = Some (sum_list (map (fun a => nth 1 (shape a) 0) arrs))
  /\ dtype r = result_type arrs
  /\ forall i, i <> 1 -> shape r !! i = (arrs !! 0) ≫= (fun a0 => shape a0 !! i).
Proof.
  intros H2 E. unfold hstack in E.
  assert (map atleast_1d arrs = arrs) as Hid.
  { clear E. induction H2 as [|a l Ha _ IH]; simpl; [done|].
    rewrite atleast_1d_id by lia. by rewrite IH. }
  rewrite Hid in E.
  assert (concatenate arrs 1 = Ok r) as E'.
  { destruct H2 as [|a l Ha _]; [done|].
    destruct (ndim a =? 1) eqn:E1; [apply Nat.eqb_eq in E1; lia|done]. }
  split; [by apply concatenate_shape_axis|]. split.
  - apply concatenate_Ok in E' as (a0 & rest & _ & _ & _ & Hd & _). exact Hd.
  - intros i Hi. by apply (concatenate_shape_other _ 1).
Qed.

End NumPyFacts.

(** ** Successful batching, step by step *)

Section BatchRuns.
Context `{Float64Ops}.

Lemma graphs_valid_nf h gs :
  Forall (graph_inv h) gs ->
  Forall (valid_opt h) (map (fun g => Some (node_features g)) gs).
Proof.
  induction 1 as [|g l Hg _ IH]; simpl; constructor; [|done].
  destruct (inv_nf _ _ Hg) as (a & E & _). simpl. eauto.
Qed.

Lemma graphs_valid_ef h gs :
  Forall (graph_inv h) gs -> Forall (valid_opt h) (map edge_features gs).
Proof.
  induction 1 as [|g l Hg _ IH]; simpl; constructor; [|done].
  destruct (inv_ef _ _ Hg) as (ea & a & k & -> & E & _). simpl. eauto.
Qed.

Lemma graphs_valid_gf h gs :
  Forall (graph_inv h) gs -> Forall (valid_opt h) (map graph_features gs).
Proof.
  induction 1 as [|g l Hg _ IH]; simpl; constructor; [|done].
  destruct (graph_features g) as [ga|] eqn:E; simpl; [|done].
  by apply (inv_gf _ _ Hg).
Qed.

Lemma graphs_valid_ei h gs : forall (l : list nat),
  Forall (graph_inv h) gs ->
  Forall (fun pg : nat * GraphData => is_Some (h !! edge_index pg.2)) (zip l gs).
Proof.
  intros l Hgs. revert l.
  induction Hgs as [|g gs Hg _ IH]; intros [|p l]; simpl; try constructor; auto.
  destruct (inv_ei _ _ Hg) as (a & E & _). simpl. eauto.
Qed.

Lemma Forall_valid_opt_app h new tup :
  Forall (valid_opt h) tup -> Forall (valid_opt (h ++ new)) tup.
Proof. intros Hv. eapply Forall_impl; [exact Hv|]. intros v. apply valid_opt_app. Qed.

Lemma map_as_array_val_app h new tup :
  Forall (valid_opt h) tup ->
  map (as_array_val (h ++ new)) tup = map (as_array_val h) tup.
Proof.
  induction 1 as [|v l Hv _ IH]; simpl; [done|].
  by rewrite as_array_val_app, IH.
Qed.

End BatchRuns.

Section BatchInversion.
Context `{Float64Ops}.

Lemma array_at_snoc (h : heap) (arr : ndarray) :
  array_at (h ++ [arr]) (length h) = arr.
Proof. apply array_at_lookup. by rewrite lookup_app_r, Nat.sub_diag. Qed.

Lemma lookup_at_length (l1 l2 big : heap) (x : ndarray) n :
  big = l1 ++ x :: l2 -> n = length l1 -> big !! n = Some x.
Proof. intros -> ->. by apply list_lookup_middle. Qed.

Lemma lookup_snoc_Some (h : heap) (arr : ndarray) :
  is_Some ((h ++ [arr]) !! length h).
Proof. exists arr. by rewrite lookup_app_r, Nat.sub_diag. Qed.

(** The graph features step of lines 172-176, whichever branch runs. *)
Lemma batch_graph_features_Ok h pre g0 gs v h3 :
  Forall (valid_opt h) (map graph_features (g0 :: gs)) ->
  match graph_features g0 with
  | Some _ =>
    bind (np_vstack (map graph_features (g0 :: gs))) (fun a => ret (PyArray a))
  | None => ret PyNone
  end (h ++ pre) = (Ok v, h3) ->
  exists o_gf,
    h3 = h ++ pre ++ option_list o_gf
    /\ v = match o_gf with
           | Some _ => PyArray (length (h ++ pre))
           | None => PyNone
           end
    /\ match graph_features g0 with
       | Some _ =>
         exists r, o_gf = Some r
           /\ vstack (map (fun g => as_array_val h (graph_features g)) (g0 :: gs))
              = Ok r
       | None => o_gf = None
       end.
Proof.
  intros Vgf E. destruct (graph_features g0) as [ga|] eqn:Eg0.
  - apply bind_Ok in E as (a & h' & E & Er). apply ret_Ok in Er as [-> ->].
    rewrite np_vstack_run in E by (by apply Forall_valid_opt_app).
    apply lift_alloc_Ok in E as (r & Er & -> & ->).
    rewrite map_as_array_val_app in Er by done.
    exists (Some r). rewrite <- app_assoc. split; [done|]. split; [done|].
    exists r. split; [done|]. by rewrite map_map in Er.
  - apply ret_Ok in E as [-> ->]. exists None. simpl. by rewrite app_nil_r.
Qed.

(** Inversion of a successful batching of graph records of [h]. *)
Lemma BatchGraphData_init_Ok gs h b h' :
  Forall (graph_inv h) gs ->
  BatchGraphData_init gs h = (Ok b, h') ->
  exists r_nf r_ef o_gf shifted r_h r_ei,
    batch_arrays h gs r_nf r_ef o_gf shifted r_h r_ei
    /\ batch_placed h gs b h' r_nf r_ef o_gf r_ei.
Proof.
  intros Hgs E. unfold BatchGraphData_init in E.
  pose proof (graphs_valid_nf _ _ Hgs) as Vnf.
  pose proof (graphs_valid_ef _ _ Hgs) as Vef.
  pose proof (graphs_valid_gf _ _ Hgs) as Vgf.
  apply bind_Ok in E as (a_nf & h1 & E1 & E).
  rewrite np_vstack_run in E1 by done.
  apply lift_alloc_Ok in E1 as (r_nf & Enf & -> & ->).
  rewrite map_map in Enf. simpl in Enf.
  destruct gs as [|g0 gs']; [done|].
  apply bind_Ok in E as (g0' & hx & E0 & E). apply ret_Ok in E0 as [-> ->].
  destruct (inv_ef _ _ (Forall_inv Hgs)) as (ea0 & efa0 & k0 & Hea0 & _).
  rewrite Hea0 in E.
  apply bind_Ok in E as (bef & h2 & E2 & E).
  apply bind_Ok in E2 as (a_ef & h2' & E2 & Er). apply ret_Ok in Er as [-> ->].
  rewrite np_vstack_run in E2 by (by apply Forall_valid_opt_app).
  apply lift_alloc_Ok in E2 as (r_ef & Eef & -> & ->).
  rewrite map_as_array_val_app in Eef by done.
  apply bind_Ok in E as (g0' & hx & E0 & E). apply ret_Ok in E0 as [-> ->].
  apply bind_Ok in E as (bgf & h3 & E3 & E).
  rewrite <- app_assoc in E3.
  apply batch_graph_features_Ok in E3 as (o_gf & -> & -> & Hgf); [|done].
  remember (zip (0 :: removelast (map num_nodes (g0 :: gs'))) (g0 :: gs')) as l.
  remember (([r_nf] ++ [r_ef]) ++ option_list o_gf) as pre.
  assert (Vei : Forall (fun pg : nat * GraphData => is_Some (h !! edge_index pg.2)) l)
    by (subst l; by apply graphs_valid_ei).
  apply bind_Ok in E as (addrs & h4 & E4 & E).
  destruct (mapM_np_add_Ok _ _ _ _ _ Vei E4) as [shifted Esh].
  rewrite (mapM_np_add_run _ _ _ _ Vei Esh) in E4. injection E4 as <- <-.
  apply bind_Ok in E as (a_h & h5 & E5 & E).
  rewrite app_assoc in E5.
  rewrite np_hstack_run in E5 by apply Forall_valid_seq.
  rewrite map_array_at_seq in E5.
  apply lift_alloc_Ok in E5 as (r_h & Eh & -> & ->).
  apply bind_Ok in E as (a_ei & h6 & E6 & E).
  rewrite np_astype_int_run in E6 by apply lookup_snoc_Some.
  rewrite array_at_snoc in E6.
  apply lift_alloc_Ok in E6 as (r_ei & Eei & -> & ->).
  apply bind_Ok in E as (a_gi & h7 & E7 & E).
  apply alloc_Ok in E7 as [-> ->].
  apply bind_Ok in E as (g & h8 & E8 & E). apply ret_Ok in E as [-> ->].
  apply GraphData_init_Ok in E8 as (-> & [= Hnf] & [= Hei] & (ea & [= Hea] & Hef) & Hgfv & Hinv).
  exists r_nf, r_ef, o_gf, shifted, r_h, r_ei. split.
  - constructor; try done.
    + by rewrite map_map in Eef.
    + by subst l.
  - subst pre.
    set (gi := array_int (extend_graph_index 0 (map num_nodes (g0 :: gs')))).
    assert (Hlen : forall pre' : heap, length h <= length (h ++ pre'))
      by (intros; rewrite length_app; lia).
    assert (Hgfl : match o_gf with
                   | Some r =>
                     (((((h ++ ([r_nf] ++ [r_ef]) ++ option_list o_gf) ++ shifted)
                         ++ [r_h]) ++ [r_ei]) ++ [gi])
                       !! length (h ++ [r_nf] ++ [r_ef]) = Some r
                   | None => True
                   end).
    { destruct o_gf as [r|]; [|done].
      eapply (lookup_at_length (h ++ [r_nf] ++ [r_ef])); [|done].
      simpl. repeat rewrite <- app_assoc. simpl. reflexivity. }
    constructor; simpl.
    + eexists. repeat rewrite <- app_assoc. reflexivity.
    + rewrite <- Hnf. eapply (lookup_at_length h); [|done].
      simpl. repeat rewrite <- app_assoc. simpl. reflexivity.
    + rewrite <- Hei. eapply (lookup_at_length _ [gi]); [|done].
      simpl. repeat rewrite <- app_assoc. simpl. reflexivity.
    + exists ea. split; [done|]. subst ea. split; [|apply Hlen].
      eapply (lookup_at_length (h ++ [r_nf])); [|done].
      simpl. repeat rewrite <- app_assoc. simpl. reflexivity.
    + destruct o_gf as [r|]; [|done].
      eexists. split; [exact Hgfv|]. split; [exact Hgfl|apply Hlen].
    + eapply (lookup_at_length _ []); [|done]. reflexivity.
    + rewrite <- Hnf, <- Hei. repeat rewrite <- app_assoc. auto.
    + apply Hinv. destruct o_gf as [r|]; simpl; [|done]. eauto.
Qed.

End BatchInversion.

(** ** Shapes of the batched arrays *)

Section BatchShapes.
Context `{Float64Ops}.

Lemma graph_nf_shape h g :
  graph_inv h g ->
  shape (array_at h (node_features g)) = [num_nodes g; num_node_features g].
Proof.
  intros Hg. destruct (inv_nf _ _ Hg) as (a & E & Hs).
  by rewrite (array_at_lookup _ _ _ E).
Qed.

Lemma graph_ei_shape h g :
  graph_inv h g ->
  dtype (array_at h (edge_index g)) = Int64
  /\ shape (array_at h (edge_index g)) !! 0 = Some 2
  /\ shape (array_at h (edge_index g)) !! 1 = Some (num_edges g).
Proof.
  intros Hg. destruct (inv_ei _ _ Hg) as (a & E & Hs).
  by rewrite (array_at_lookup _ _ _ E).
Qed.

Lemma graph_ef_shape h g :
  graph_inv h g ->
  shape (as_array_val h (edge_features g)) !! 0 = Some (num_edges g)
  /\ exists k, shape (as_array_val h (edge_features g)) !! 1 = Some k
               /\ num_edge_features g = Some k.
Proof.
  intros Hg. destruct (inv_ef _ _ Hg) as (ea & a & k & -> & E & H0 & H1 & Hk).
  simpl. rewrite (array_at_lookup _ _ _ E). eauto.
Qed.

Lemma nf_rows h gs :
  Forall (graph_inv h) gs ->
  map (fun a => nth 0 (shape a) 0)
      (map (fun g => array_at h (node_features g)) gs) = map num_nodes gs
  /\ Forall (fun a => 2 <= ndim a)
            (map (fun g => array_at h (node_features g)) gs).
Proof.
  induction 1 as [|g gs Hg _ [IH1 IH2]]; simpl; [by split|].
  pose proof (graph_nf_shape _ _ Hg) as Hs. split.
  - rewrite IH1, Hs. done.
  - constructor; [|done]. unfold ndim. rewrite Hs. simpl. lia.
Qed.

Lemma ef_rows h gs :
  Forall (graph_inv h) gs ->
  map (fun a => nth 0 (shape a) 0)
      (map (fun g => as_array_val h (edge_features g)) gs) = map num_edges gs
  /\ Forall (fun a => 2 <= ndim a)
            (map (fun g => as_array_val h (edge_features g)) gs).
Proof.
  induction 1 as [|g gs Hg _ [IH1 IH2]]; simpl; [by split|].
  destruct (graph_ef_shape _ _ Hg) as (H0 & k & H1 & _). split.
  - rewrite IH1, (nth_lookup_shape _ _ _ H0). done.
  - constructor; [|done]. apply lookup_ndim in H1. lia.
Qed.

(** Each shifted edge index keeps the dtype and shape of its source. *)
Lemma shifted_shapes h gs : forall (l : list nat) shifted,
  Forall (graph_inv h) gs ->
  length gs <= length l ->
  rmap (shift_edge_index h) (zip l gs) = Ok shifted ->
  map (fun a => nth 1 (shape a) 0) shifted = map num_edges gs
  /\ Forall (fun a => 2 <= ndim a /\ dtype a = Int64
                      /\ shape a !! 0 = Some 2) shifted.
Proof.
  intros l shifted Hgs. revert l shifted.
  induction Hgs as [|g gs Hg _ IH]; intros [|p l] shifted Hl E; simpl in *;
    try lia.
  - injection E as <-. by split.
  - injection E as <-. by split.
  - apply rbind_Ok in E as (y & Ey & E).
    apply rbind_Ok in E as (ys & Eys & E). injection E as <-.
    destruct (IH l ys ltac:(lia) Eys) as [IH1 IH2].
    unfold shift_edge_index in Ey. simpl in Ey.
    apply add_scalar_Ok in Ey as (Hd & Hs & _).
    destruct (graph_ei_shape _ _ Hg) as (Hd' & H0 & H1).
    rewrite <- Hs in H0, H1. split; simpl.
    + by rewrite IH1, (nth_lookup_shape _ _ _ H1).
    + constructor; [|done]. split; [|split; [congruence|done]].
      apply lookup_ndim in H1. lia.
Qed.

Lemma result_type_Int64 arrs :
  Forall (fun a => dtype a = Int64) arrs -> result_type arrs = Int64.
Proof.
  induction 1 as [|a l Ha _ IH]; simpl; [done|]. by rewrite Ha, IH.
Qed.

Lemma length_shift_list (gs : list GraphData) :
  length gs <= length (0 :: removelast (map num_nodes gs)).
Proof.
  simpl. rewrite removelast_firstn_len, length_take, length_map. lia.
Qed.

(** The shapes of the arrays a successful batching computes. *)
Lemma batch_arrays_shapes h gs r_nf r_ef o_gf shifted r_h r_ei :
  Forall (graph_inv h) gs ->
  batch_arrays h gs r_nf r_ef o_gf shifted r_h r_ei ->
  (exists f, shape r_nf = [sum_list (map num_nodes gs); f])
  /\ dtype r_ei = Int64
  /\ shape r_ei !! 0 = Some 2
  /\ shape r_ei !! 1 = Some (sum_list (map num_edges gs))
  /\ shape r_ef !! 0 = Some (sum_list (map num_edges gs))
  /\ exists k, shape r_ef !! 1 = Some k.
Proof.
  intros Hgs [Enf Eef _ Esh Eh Eei].
  destruct (nf_rows _ _ Hgs) as [Hn1 Hn2].
  destruct (ef_rows _ _ Hgs) as [He1 He2].
  destruct (shifted_shapes _ _ _ _ Hgs (length_shift_list gs) Esh)
    as [Hs1 Hs2].
  assert (Hs2' : Forall (fun a => 2 <= ndim a) shifted)
    by (eapply Forall_impl; [exact Hs2|]; intros a (Ha & _); exact Ha).
  destruct gs as [|g0 gs']; [done|].
  apply Forall_inv in Hgs as Hg0.
  split; [|split; [|split; [|split; [|split]]]].
  - unfold vstack in Enf.
    apply concatenate_Ok in Enf as (a0 & rest & Ea & _ & _ & _ & Hs).
    assert (map atleast_2d (map (fun g => array_at h (node_features g)) (g0 :: gs'))
            = map (fun g => array_at h (node_features g)) (g0 :: gs')) as Hid.
    { clear -Hn2. induction Hn2 as [|a l Ha _ IH]; simpl; [done|].
      by rewrite atleast_2d_id, IH. }
    rewrite Hid in Ea, Hs. rewrite Hn1 in Hs.
    injection Ea as <- _. rewrite (graph_nf_shape _ _ Hg0) in Hs.
    simpl in Hs. eauto.
  - by apply astype_int_Ok in Eei as (? & _).
  - apply astype_int_Ok in Eei as (_ & -> & _).
    destruct (hstack_cols _ _ Hs2' Eh) as (_ & _ & Ho).
    rewrite Ho by done. destruct Hs2 as [|a l (_ & _ & Ha) _]; [|done].
    simpl in Esh. apply rbind_Ok in Esh as (? & _ & Esh).
    by apply rbind_Ok in Esh as (? & _ & ?).
  - apply astype_int_Ok in Eei as (_ & -> & _).
    destruct (hstack_cols _ _ Hs2' Eh) as (-> & _). by rewrite Hs1.
  - destruct (vstack_rows _ _ He2 Eef) as (-> & _). by rewrite He1.
  - destruct (vstack_rows _ _ He2 Eef) as (_ & ->); [|done]. simpl.
    destruct (graph_ef_shape _ _ Hg0) as (_ & k & Hk & _). eauto.
Qed.

End BatchShapes.

(** ** The sample records are graph records *)

Section Samples.

Lemma sample_g0_record : graph_record sample_heap sample_g0.
Proof.
  exists (PyArray 0), (PyArray 1), (PyArray 2), PyNone.
  split; [exact I|reflexivity].
Qed.

Lemma sample_g1_record : graph_record sample_heap sample_g1.
Proof.
  exists (PyArray 3), (PyArray 4), (PyArray 5), PyNone.
  split; [exact I|reflexivity].
Qed.

Lemma sample_g2_record : graph_record sample_heap sample_g2.
Proof.
  exists (PyArray 14), (PyArray 15), (PyArray 16), PyNone.
  split; [exact I|reflexivity].
Qed.

Lemma sample_g1_vec_record : graph_record sample_heap sample_g1_vec.
Proof.
  exists (PyArray 3), (PyArray 4), (PyArray 5), (PyArray 6).
  split; [by eexists|reflexivity].
Qed.

Lemma sample_empty_record : graph_record sample_heap sample_empty.
Proof.
  exists (PyArray 7), (PyArray 8), (PyArray 9), PyNone.
  split; [exact I|reflexivity].
Qed.

Lemma sample_out_of_range_record :
  graph_record sample_heap sample_out_of_range.
Proof.
  exists (PyArray 3), (PyArray 10), (PyArray 5), PyNone.
  split; [exact I|reflexivity].
Qed.

End Samples.

(** ** Construction *)

Section Construction.

(** C2. The constructor called as in the docstring of the class, with
    node features of shape (5, 10), the edge index
    [[0,1,2,2,3],[1,2,3,3,4]] and no edge features, does not return a
    record: line 86 reads [None.shape] and raises AttributeError. *)
Theorem C2_no_edge_features_raises :
  GraphData_init (PyArray 11) (PyArray 12) PyNone PyNone sample_heap
  = (Raise AttributeError, sample_heap).
Proof. reflexivity. Qed.

(** C3, as the code has it. A successful construction has checked that
    the edge index is an int64 array with first dimension 2 (and second
    dimension [num_edges]); it has not looked at the entries: with any
    other entries in that array the same call returns the same record. *)
Theorem C3_edge_index_checked_by_shape_only nf ei ef gf h g :
  value_valid h gf ->
  GraphData_init nf ei ef gf h = (Ok g, h) ->
  (exists arr, h !! edge_index g = Some arr /\ dtype arr = Int64
               /\ shape arr !! 0 = Some 2
               /\ shape arr !! 1 = Some (num_edges g))
  /\ forall d,
       let h2 :=
         insert (edge_index g)
                (mk_ndarray Int64 (shape (array_at h (edge_index g))) d) h in
       GraphData_init nf ei ef gf h2 = (Ok g, h2).
Proof.
  intros Hv E.
  apply GraphData_init_Ok in E as (_ & -> & -> & (ea & -> & Hea) & Hgf & Hinv).
  destruct (Hinv Hv) as [(nfa & Hnf & Snf) (eia & Hei & Dei & S0 & S1)
                          (ea' & efa & k & Hef & Hefa & T0 & T1 & Hk) _].
  split; [eauto 10|]. intros d h2.
  rewrite Hea in Hef. injection Hef as <-.
  assert (Hsame : forall x a, h !! x = Some a ->
            exists a', h2 !! x = Some a' /\ shape a' = shape a
                       /\ (dtype a = Int64 -> dtype a' = Int64)).
  { intros x a Hx. subst h2.
    destruct (decide (x = edge_index g)) as [->|Hne].
    - rewrite list_lookup_insert_eq by (by eapply lookup_lt_Some).
      eexists. split; [done|]. simpl.
      rewrite (array_at_lookup _ _ _ Hei). rewrite Hei in Hx. by injection Hx as <-.
    - rewrite list_lookup_insert_ne by done. eauto. }
  destruct (Hsame _ _ Hnf) as (nfa' & Hnf' & Snf' & _).
  destruct (Hsame _ _ Hei) as (eia' & Hei' & Sei' & Dei').
  destruct (Hsame _ _ Hefa) as (efa' & Hefa' & Sef' & _).
  rewrite <- Snf' in Snf. rewrite <- Sei' in S0, S1. rewrite <- Sef' in T0, T1.
  erewrite GraphData_init_intro; try eassumption; [|auto|by destruct gf].
  destruct g; simpl in *; subst. do 3 f_equal. by destruct gf; simplify_eq.
Qed.

(** C8. Construction raises a ValueError when the edge index has a row
    count other than 2, and when edge features are given whose row count
    differs from the column count of the edge index. *)
Theorem C8_construction_rejects_bad_shapes nf ei ef gf h :
  (forall a arr rows,
     ei = PyArray a -> h !! a = Some arr -> shape arr !! 0 = Some rows ->
     rows <> 2 ->
     exists msg, GraphData_init nf ei ef gf h = (Raise (ValueError msg), h))
  /\ (forall a arr cols ea earr ef_rows,
        ei = PyArray a -> h !! a = Some arr -> shape arr !! 1 = Some cols ->
        ef = PyArray ea -> h !! ea = Some earr ->
        shape earr !! 0 = Some ef_rows -> ef_rows <> cols ->
        exists msg, GraphData_init nf ei ef gf h = (Raise (ValueError msg), h)).
Proof.
  split.
  - intros a arr rows -> Ha Hrows Hne.
    destruct nf as [|nfa|]; [run_init; eauto| |run_init; eauto].
    run_init. case_bool_decide; run_init; [|eauto].
    apply Nat.eqb_neq in Hne. rewrite Hne. run_init. eauto.
  - intros a arr cols ea earr ef_rows -> Ha Hcols -> Hea Hrows Hne.
    destruct nf as [|nfa|]; [run_init; eauto| |run_init; eauto].
    run_init. case_bool_decide; run_init; [|eauto].
    destruct (shape arr !! 0) as [rows|] eqn:Hr.
    2:{ apply lookup_ge_None in Hr. apply lookup_lt_Some in Hcols. lia. }
    run_init. destruct (rows =? 2) eqn:E2; run_init; [|eauto].
    assert ((cols =? ef_rows) = false) as -> by (apply Nat.eqb_neq; congruence).
    run_init. eauto.
Qed.

End Construction.

(** ** The graph index *)

Section GraphIndex.

Lemma extend_graph_index_length i l :
  length (extend_graph_index i l) = sum_list l.
Proof.
  revert i. induction l as [|n l IH]; intros i; simpl; [done|].
  by rewrite length_app, length_replicate, IH.
Qed.

(** Position [j] holds [i + k] exactly when it falls in the block of the
    [k]-th count. *)
Lemma extend_graph_index_lookup l : forall i j v,
  extend_graph_index i l !! j = Some v <->
  exists k n, v = i + k /\ l !! k = Some n
              /\ prefix_offset l k <= j < prefix_offset l k + n.
Proof.
  unfold prefix_offset.
  induction l as [|n0 l IH]; intros i j v; simpl.
  - split; [done|]. by intros (k & n & _ & ? & _).
  - destruct (decide (j < n0)) as [Hj|Hj].
    + rewrite lookup_app_l by (by rewrite length_replicate).
      rewrite lookup_replicate. split.
      * intros [-> _]. exists 0, n0. simpl. split; [lia|]. split; [done|lia].
      * intros (k & n & -> & Hk & Hlt). destruct k as [|k]; simpl in *.
        -- split; [f_equal; lia|done].
        -- lia.
    + rewrite lookup_app_r by (rewrite length_replicate; lia).
      rewrite length_replicate, IH. split.
      * intros (k & n & -> & Hk & Hlt). exists (S k), n. simpl.
        split; [lia|]. split; [done|lia].
      * intros (k & n & -> & Hk & Hlt). destruct k as [|k]; simpl in *.
        -- simplify_eq. lia.
        -- exists k, n. split; [lia|]. split; [done|lia].
Qed.

Lemma prefix_offset_mono l k1 k2 n :
  k1 < k2 -> l !! k1 = Some n ->
  prefix_offset l k1 + n <= prefix_offset l k2.
Proof.
  unfold prefix_offset. revert k1 k2.
  induction l as [|n0 l IH]; intros k1 k2 Hlt Hk; [done|].
  destruct k2 as [|k2]; [lia|]. destruct k1 as [|k1]; simpl in *.
  - simplify_eq. lia.
  - specialize (IH k1 k2 ltac:(lia) Hk). lia.
Qed.

Lemma extend_graph_index_sorted l j1 j2 v1 v2 :
  j1 <= j2 ->
  extend_graph_index 0 l !! j1 = Some v1 ->
  extend_graph_index 0 l !! j2 = Some v2 ->
  v1 <= v2.
Proof.
  intros Hj E1 E2.
  apply extend_graph_index_lookup in E1 as (k1 & n1 & -> & Hk1 & Hb1).
  apply extend_graph_index_lookup in E2 as (k2 & n2 & -> & Hk2 & Hb2).
  simpl. destruct (decide (k1 <= k2)) as [|Hgt]; [done|].
  pose proof (prefix_offset_mono l k2 k1 n2 ltac:(lia) Hk2). lia.
Qed.

Lemma extend_graph_index_elem l v :
  v ∈ extend_graph_index 0 l <-> exists n, l !! v = Some n /\ 0 < n.
Proof.
  rewrite list_elem_of_lookup. split.
  - intros (j & E).
    apply extend_graph_index_lookup in E as (k & n & -> & Hk & Hb).
    exists n. split; [done|lia].
  - intros (n & Hv & Hn). exists (prefix_offset l v).
    apply extend_graph_index_lookup. exists v, n.
    split; [done|]. split; [done|lia].
Qed.

End GraphIndex.

(** ** Batching *)

Section Batching.
Context `{Float64Ops}.

Lemma graph_records_inv h gs :
  Forall (graph_record h) gs -> Forall (graph_inv h) gs.
Proof. intros Hgs. eapply Forall_impl; [exact Hgs|]. apply graph_record_inv. Qed.

(** C10. Batching the empty sequence raises: [np.vstack] on the empty
    list of node features is a ValueError, before anything is allocated,
    and no record is returned. *)
Theorem C10_batch_empty_raises h :
  BatchGraphData_init [] h
  = (Raise (ValueError "need at least one array to concatenate"), h).
Proof. reflexivity. Qed.

Lemma batch_counts gs h b h' :
  Forall (graph_inv h) gs ->
  BatchGraphData_init gs h = (Ok b, h') ->
  num_nodes (graph b) = sum_list (map num_nodes gs)
  /\ num_edges (graph b) = sum_list (map num_edges gs).
Proof.
  intros Hgs E.
  destruct (BatchGraphData_init_Ok _ _ _ _ Hgs E)
    as (r_nf & r_ef & o_gf & shifted & r_h & r_ei & Ha & Hp).
  destruct (batch_arrays_shapes _ _ _ _ _ _ _ _ Hgs Ha)
    as ((f & Snf) & _ & _ & Sei & _).
  destruct (bp_inv _ _ _ _ _ _ _ _ Hp)
    as [(a & Hnf & Sa) (e & Hei & _ & _ & Se) _ _].
  rewrite (bp_nf _ _ _ _ _ _ _ _ Hp) in Hnf. injection Hnf as <-.
  rewrite (bp_ei _ _ _ _ _ _ _ _ Hp) in Hei. injection Hei as <-.
  split; congruence.
Qed.

(** C7. When batching graph records succeeds, the node count of the
    batched record is the sum of the node counts of the graphs, and its
    edge count the sum of their edge counts. *)
Theorem C7_batch_preserves_counts gs h b h' :
  Forall (graph_record h) gs ->
  BatchGraphData_init gs h = (Ok b, h') ->
  num_nodes (graph b) = sum_list (map num_nodes gs)
  /\ num_edges (graph b) = sum_list (map num_edges gs).
Proof. intros Hgs. apply batch_counts. by apply graph_records_inv. Qed.

(** C4, as the code has it. The graph index of a batched record is an
    int64 vector with one entry per batched node; it is non-decreasing;
    graph [i] owns the block of [num_nodes] entries that starts at the sum
    of the node counts of the graphs before it, all equal to [i]; so the
    values that occur are the positions of the graphs that have at least
    one node, and they are 0..len(graphs)-1 when every graph has one. *)
Theorem C4_graph_index_blocks gs h b h' :
  Forall (graph_record h) gs ->
  BatchGraphData_init gs h = (Ok b, h') ->
  exists gi,
    h' !! graph_index b = Some (array_int gi)
    /\ length gi = num_nodes (graph b)
    /\ (forall j1 j2 v1 v2,
          j1 <= j2 -> gi !! j1 = Some v1 -> gi !! j2 = Some v2 -> v1 <= v2)
    /\ (forall i g j,
          gs !! i = Some g ->
          prefix_offset (map num_nodes gs) i <= j
            < prefix_offset (map num_nodes gs) i + num_nodes g ->
          gi !! j = Some i)
    /\ (forall v, v ∈ gi <-> exists g, gs !! v = Some g /\ 0 < num_nodes g)
    /\ (Forall (fun g => 0 < num_nodes g) gs ->
        forall v, v ∈ gi <-> v < length gs).
Proof.
  intros Hgs E. apply graph_records_inv in Hgs.
  destruct (batch_counts _ _ _ _ Hgs E) as [Hn _].
  destruct (BatchGraphData_init_Ok _ _ _ _ Hgs E)
    as (r_nf & r_ef & o_gf & shifted & r_h & r_ei & Ha & Hp).
  exists (extend_graph_index 0 (map num_nodes gs)).
  assert (Hel : forall v, v ∈ extend_graph_index 0 (map num_nodes gs)
                  <-> exists g, gs !! v = Some g /\ 0 < num_nodes g).
  { intros v. rewrite extend_graph_index_elem. split.
    - intros (n & Hv & Hn0). rewrite list_lookup_fmap in Hv.
      destruct (gs !! v) as [g|]; simpl in Hv; [|done].
      injection Hv as <-. eauto.
    - intros (g & Hv & Hn0). exists (num_nodes g).
      by rewrite list_lookup_fmap, Hv. }
  split; [exact (bp_gi _ _ _ _ _ _ _ _ Hp)|].
  split; [by rewrite extend_graph_index_length|].
  split; [apply extend_graph_index_sorted|].
  split; [|split; [exact Hel|]].
  - intros i g j Hi Hj. apply extend_graph_index_lookup.
    exists i, (num_nodes g). split; [done|]. split; [|done].
    by rewrite list_lookup_fmap, Hi.
  - intros Hpos v. rewrite Hel. split.
    + intros (g & Hv & _). by eapply lookup_lt_Some.
    + intros Hv. destruct (lookup_lt_is_Some_2 gs v Hv) as [g Hg].
      exists g. split; [done|].
      rewrite Forall_forall in Hpos. apply Hpos.
      apply list_elem_of_lookup. eauto.
Qed.

End Batching.

Section BatchingFrame.
Context `{Float64Ops}.

(** The number the code adds to the edge index of graph [i + 1] is the
    node count of graph [i] alone. *)
Lemma shift_offset_is_previous_count (nn : list nat) i :
  S i < length nn -> (0 :: removelast nn) !! S i = nn !! i.
Proof.
  intros Hi. simpl. rewrite removelast_firstn_len.
  apply lookup_take_lt. lia.
Qed.

(** C1 on three graphs of 3, 2 and 2 nodes. The edge [[1],[0]] of the third
    graph comes out as [[3],[2]]: the code added 2, the node count of the
    second graph, where the prefix offset is 3 + 2 = 5; the batched edge
    index is [[0,1,3,3],[1,2,4,2]] and its last edge joins a node of the
    second graph to a node of the first. *)
Theorem C1_third_graph_offset :
  prefix_offset (map num_nodes [sample_g0; sample_g1; sample_g2]) 2 = 5
  /\ field_array (fun b => edge_index (graph b))
       (BatchGraphData_init [sample_g0; sample_g1; sample_g2] sample_heap)
     = Some (ints [2; 4] [0; 1; 3; 3; 1; 2; 4; 2]%Z).
Proof. split; [reflexivity|]. vm_compute. reflexivity. Qed.

(** C9. Batching only appends to the store: every array that was there
    is still there, unchanged, whatever the outcome. When batching graph
    records succeeds, each array of the batched record is a new object,
    none of them an array of an input graph. *)
Theorem C9_batch_allocates_only gs h :
  (forall a arr,
     h !! a = Some arr -> (BatchGraphData_init gs h).2 !! a = Some arr)
  /\ (forall b h',
        Forall (graph_record h) gs ->
        BatchGraphData_init gs h = (Ok b, h') ->
        Forall (fun a => length h <= a /\ is_Some (h' !! a)) (batch_refs b)
        /\ forall g a, g ∈ gs -> a ∈ graph_arrays g -> a ∉ batch_refs b).
Proof.
  split.
  - intros a arr Ha.
    destruct (extends_BatchGraphData_init gs h) as [new ->].
    by apply lookup_app_l_Some.
  - intros b h' Hgs E. apply graph_records_inv in Hgs.
    destruct (BatchGraphData_init_Ok _ _ _ _ Hgs E)
      as (r_nf & r_ef & o_gf & shifted & r_h & r_ei & Ha & Hp).
    destruct Hp as [_ Hnf Hei (ea & Hea & Hea' & Fea) Hgf Hgi (F1 & F2 & F3) _].
    assert (Hfresh : Forall (fun a => length h <= a /\ is_Some (h' !! a))
                            (batch_refs b)).
    { unfold batch_refs, graph_arrays. rewrite Hea. simpl.
      repeat (apply Forall_cons; split; [eauto|]).
      destruct o_gf as [r|].
      - destruct Hgf as (ga & -> & Hga & Fga). simpl.
        repeat (apply Forall_cons; split; [eauto|]). constructor.
      - rewrite Hgf. simpl.
        repeat (apply Forall_cons; split; [eauto|]). constructor. }
    split; [exact Hfresh|].
    intros g a Hg Ha' Hin.
    rewrite Forall_forall in Hfresh. destruct (Hfresh _ Hin) as [Hge _].
    rewrite Forall_forall in Hgs. specialize (Hgs _ Hg).
    assert (is_Some (h !! a)) as Hva.
    { unfold graph_arrays in Ha'.
      destruct (inv_nf _ _ Hgs) as (? & ? & _).
      destruct (inv_ei _ _ Hgs) as (? & ? & _).
      destruct (inv_ef _ _ Hgs) as (ea' & ? & ? & Hef & ? & _).
      rewrite Hef in Ha'. simpl in Ha'.
      apply elem_of_cons in Ha' as [->|Ha']; [eauto|].
      apply elem_of_cons in Ha' as [->|Ha']; [eauto|].
      apply elem_of_cons in Ha' as [->|Ha']; [eauto|].
      destruct (graph_features g) as [ga|] eqn:Eg; simpl in Ha'.
      - apply elem_of_cons in Ha' as [->|Ha']; [|by apply elem_of_nil in Ha'].
        by apply (inv_gf _ _ Hgs).
      - by apply elem_of_nil in Ha'. }
    apply lookup_lt_is_Some in Hva. lia.
Qed.

End BatchingFrame.

(** ** Batching succeeds when its arrays can be computed *)

Section BatchExistence.
Context `{Float64Ops}.

Lemma bind_run {A B} (m : M A) (k : A -> M B) h a h1 :
  m h = (Ok a, h1) -> bind m k h = k a h1.
Proof. unfold bind. by intros ->. Qed.

(** The feature stacking of lines 167-176 for the attribute [f]. *)
Lemma features_step_run (f : GraphData -> option addr) g0 gs h pre o :
  Forall (valid_opt h) (map f (g0 :: gs)) ->
  match f g0 with
  | Some _ =>
    exists r, o = Some r
      /\ vstack (map (fun g => as_array_val h (f g)) (g0 :: gs)) = Ok r
  | None => o = None
  end ->
  match f g0 with
  | Some _ => bind (np_vstack (map f (g0 :: gs))) (fun a => ret (PyArray a))
  | None => ret PyNone
  end (h ++ pre)
  = (Ok match o with
        | Some _ => PyArray (length (h ++ pre))
        | None => PyNone
        end, h ++ pre ++ option_list o).
Proof.
  intros Vf Ho. destruct (f g0) as [a0|].
  - destruct Ho as (r & -> & Er).
    erewrite bind_run.
    2:{ rewrite np_vstack_run by (by apply Forall_valid_opt_app).
        rewrite map_as_array_val_app by done.
        rewrite map_map. apply lift_alloc_run. exact Er. }
    unfold ret. simpl. by rewrite <- app_assoc.
  - subst o. unfold ret. simpl. by rewrite app_nil_r.
Qed.

Lemma BatchGraphData_init_run gs h r_nf r_ef o_gf shifted r_h r_ei :
  Forall (graph_inv h) gs ->
  batch_arrays h gs r_nf r_ef o_gf shifted r_h r_ei ->
  exists b h', BatchGraphData_init gs h = (Ok b, h').
Proof.
  intros Hgs Ha.
  destruct (batch_arrays_shapes _ _ _ _ _ _ _ _ Hgs Ha)
    as ((f & Snf) & Dei & Sei0 & Sei1 & Sef0 & (k & Sef1)).
  destruct Ha as [Enf Eef Egf Esh Eh Eei].
  destruct gs as [|g0 gs']; [done|].
  pose proof (graphs_valid_nf _ _ Hgs) as Vnf.
  pose proof (graphs_valid_ef _ _ Hgs) as Vef.
  pose proof (graphs_valid_gf _ _ Hgs) as Vgf.
  destruct (inv_ef _ _ (Forall_inv Hgs)) as (ea0 & efa0 & k0 & Hea0 & _).
  do 2 eexists. unfold BatchGraphData_init.
  erewrite bind_run.
  2:{ rewrite np_vstack_run by done. rewrite map_map.
      apply lift_alloc_run. exact Enf. }
  erewrite bind_run by reflexivity.
  erewrite bind_run.
  2:{ apply (features_step_run edge_features _ _ h [r_nf] (Some r_ef));
        [done|]. rewrite Hea0. eauto. }
  erewrite bind_run by reflexivity.
  erewrite bind_run.
  2:{ apply (features_step_run graph_features _ _ h _ o_gf); [done|].
      exact Egf. }
  cbv zeta.
  erewrite bind_run.
  2:{ apply mapM_np_add_run; [|exact Esh]. by apply graphs_valid_ei. }
  erewrite bind_run.
  2:{ rewrite (app_assoc h _ shifted). rewrite np_hstack_run by apply Forall_valid_seq.
      rewrite map_array_at_seq. apply lift_alloc_run. exact Eh. }
  erewrite bind_run.
  2:{ rewrite np_astype_int_run by apply lookup_snoc_Some.
      rewrite array_at_snoc. apply lift_alloc_run. exact Eei. }
  erewrite bind_run by reflexivity.
  erewrite bind_run.
  2:{ eapply GraphData_init_intro.
      - eapply (lookup_at_length h); [|done].
        simpl. repeat rewrite <- app_assoc. simpl. reflexivity.
      - exact Snf.
      - eapply (lookup_at_length _ [_]); [|done].
        simpl. repeat rewrite <- app_assoc. simpl. reflexivity.
      - exact Dei.
      - exact Sei0.
      - exact Sei1.
      - eapply (lookup_at_length (h ++ [r_nf])); [|done].
        simpl. repeat rewrite <- app_assoc. simpl. reflexivity.
      - exact Sef0.
      - exact Sef1.
      - by destruct o_gf. }
  reflexivity.
Qed.

End BatchExistence.

(** ** Stacking a single array *)

Section SingleArray.
Context `{Float64Ops}.

Lemma size_of_app s1 s2 : size_of (s1 ++ s2) = size_of s1 * size_of s2.
Proof.
  unfold size_of. induction s1 as [|n s1 IH]; simpl; [lia|].
  rewrite IH. lia.
Qed.

(** Reading the blocks [k], [k+1], ... in order reads the list in order. *)
Lemma flat_map_chunk c (l : list elem) : forall n k,
  flat_map (fun i => chunk c i l) (seq k n) = take (n * c) (drop (k * c) l).
Proof.
  unfold chunk. induction n as [|n IH]; intros k; simpl; [done|].
  rewrite IH. simpl.
  replace (c + k * c) with (k * c + c) by lia.
  rewrite <- drop_drop. by rewrite take_take_drop.
Qed.

Lemma cast_elem_fits d x : elem_fits d x -> cast_elem d x = x.
Proof. by destruct d, x. Qed.

Lemma map_cast_elem_fits d l :
  Forall (elem_fits d) l -> map (cast_elem d) l = l.
Proof.
  induction 1 as [|x l Hx _ IH]; simpl; [done|].
  by rewrite cast_elem_fits, IH.
Qed.

Lemma promote_Int64_r d : promote d Int64 = d.
Proof. by destruct d. Qed.

(** Concatenating one well-formed array gives an equal array. *)
Lemma concatenate_single a axis :
  wf_array a -> axis < ndim a -> concatenate [a] axis = Ok a.
Proof.
  intros [Hlen Hfit] Hax. unfold concatenate.
  destruct (ndim a =? 0) eqn:E0; [apply Nat.eqb_eq in E0; lia|].
  destruct (ndim a <=? axis) eqn:E1; [apply Nat.leb_le in E1; lia|].
  simpl. rewrite promote_Int64_r, Nat.add_0_r.
  destruct a as [d s l]. simpl in *. f_equal. f_equal.
  - apply list_insert_id.
    destruct (nth_lookup_or_length s axis 0) as [E|E]; [done|].
    unfold ndim in Hax. simpl in Hax. lia.
  - rewrite map_cast_elem_fits by done.
    erewrite flat_map_ext by (intros i; apply app_nil_r).
    rewrite flat_map_chunk. simpl. rewrite drop_0.
    apply take_ge. rewrite Hlen.
    rewrite <- (take_drop axis s) at 1. by rewrite size_of_app.
Qed.

Lemma atleast_2d_wf a : wf_array a -> wf_array (atleast_2d a).
Proof.
  intros [Hlen Hfit]. unfold atleast_2d. destruct a as [d s l]. simpl in *.
  destruct s as [|n [|m s]]; split; simpl in *; try done; lia.
Qed.

Lemma atleast_2d_ndim a : 2 <= ndim (atleast_2d a).
Proof.
  unfold atleast_2d, ndim. destruct a as [d s l]. simpl.
  destruct s as [|n [|m s]]; simpl; lia.
Qed.

Lemma vstack_single a : wf_array a -> vstack [a] = Ok (atleast_2d a).
Proof.
  intros Hwf. unfold vstack. simpl. apply concatenate_single.
  - by apply atleast_2d_wf.
  - pose proof (atleast_2d_ndim a). lia.
Qed.

Lemma hstack_single a : wf_array a -> 2 <= ndim a -> hstack [a] = Ok a.
Proof.
  intros Hwf Hn. unfold hstack. simpl. rewrite atleast_1d_id by lia.
  destruct (ndim a =? 1) eqn:E1; [apply Nat.eqb_eq in E1; lia|].
  apply concatenate_single; [done|lia].
Qed.

Lemma wrap64_in_range z : in_int64 z -> wrap64 z = z.
Proof.
  unfold in_int64, int64_min, int64_max, wrap64. intros Hz.
  rewrite Z.mod_small by lia. lia.
Qed.

Lemma int_array_elems a :
  wf_array a -> dtype a = Int64 ->
  Forall (fun x => exists z, x = EInt z /\ in_int64 z) (data a).
Proof.
  intros [_ Hfit] Hd. rewrite Hd in Hfit.
  eapply Forall_impl; [exact Hfit|]. intros [z| |]; simpl; [eauto|done..].
Qed.

Lemma add_scalar_zero a :
  wf_array a -> dtype a = Int64 -> add_scalar a 0 = Ok a.
Proof.
  intros Hwf Hd. pose proof (int_array_elems _ Hwf Hd) as Hel.
  unfold add_scalar. rewrite Hd.
  rewrite (rmap_Ok_intro _ _ (data a)).
  - simpl. destruct a. simpl in *. by subst.
  - clear -Hel. induction Hel as [|x l (z & -> & Hz) _ IH]; constructor; [|done].
    simpl. by rewrite Z.add_0_r, wrap64_in_range.
Qed.

Lemma astype_int_id a :
  wf_array a -> dtype a = Int64 -> astype_int a = Ok a.
Proof.
  intros Hwf Hd. pose proof (int_array_elems _ Hwf Hd) as Hel.
  unfold astype_int. rewrite Hd.
  rewrite (rmap_Ok_intro _ _ (data a)).
  - simpl. destruct a. simpl in *. by subst.
  - clear -Hel. induction Hel as [|x l (z & -> & Hz) _ IH]; constructor; done.
Qed.

Lemma heap_wf_lookup h a arr : heap_wf h -> h !! a = Some arr -> wf_array arr.
Proof. intros Hwf Ha. eapply Forall_lookup_1; eauto. Qed.

End SingleArray.

(** ** Batching one graph, batching two graphs *)

Section SmallBatches.
Context `{Float64Ops}.

(** The arrays a batching computes are determined by the graphs. *)
Lemma batch_arrays_det h gs r_nf r_ef o_gf shifted r_h r_ei
    r_nf' r_ef' o_gf' shifted' r_h' r_ei' :
  batch_arrays h gs r_nf r_ef o_gf shifted r_h r_ei ->
  batch_arrays h gs r_nf' r_ef' o_gf' shifted' r_h' r_ei' ->
  r_nf' = r_nf /\ r_ef' = r_ef /\ o_gf' = o_gf /\ r_ei' = r_ei.
Proof.
  intros [Enf Eef Egf Esh Eh Eei] [Enf' Eef' Egf' Esh' Eh' Eei'].
  rewrite Enf in Enf'. injection Enf' as <-.
  rewrite Eef in Eef'. injection Eef' as <-.
  rewrite Esh in Esh'. injection Esh' as <-.
  rewrite Eh in Eh'. injection Eh' as <-.
  rewrite Eei in Eei'. injection Eei' as <-.
  repeat split; try done.
  destruct (head gs ≫= graph_features).
  - destruct Egf as (r & -> & Er), Egf' as (r' & -> & Er').
    rewrite Er in Er'. by injection Er' as <-.
  - by subst.
Qed.

(** Batching succeeds with given arrays: where the record holds them. *)
Lemma batch_run_placed gs h r_nf r_ef o_gf shifted r_h r_ei :
  Forall (graph_inv h) gs ->
  batch_arrays h gs r_nf r_ef o_gf shifted r_h r_ei ->
  exists b h',
    BatchGraphData_init gs h = (Ok b, h')
    /\ batch_placed h gs b h' r_nf r_ef o_gf r_ei.
Proof.
  intros Hgs Ha.
  destruct (BatchGraphData_init_run _ _ _ _ _ _ _ _ Hgs Ha) as (b & h' & E).
  exists b, h'. split; [done|].
  destruct (BatchGraphData_init_Ok _ _ _ _ Hgs E)
    as (r_nf' & r_ef' & o_gf' & shifted' & r_h' & r_ei' & Ha' & Hp).
  destruct (batch_arrays_det _ _ _ _ _ _ _ _ _ _ _ _ _ _ Ha Ha')
    as (-> & -> & -> & ->).
  done.
Qed.

(** C5, as the code has it. Batching the single graph record [g] returns
    a record whose node features, edge index and edge features equal
    those of [g] and whose graph index is [num_nodes] zeros. Its graph
    features are absent when those of [g] are; otherwise they are those of
    [g] made at least 2-d by [np.vstack]: equal to them when they have two
    or more dimensions, the 1 x n matrix of the same entries when they
    are a vector of length n. *)
Theorem C5_batch_single_graph h g :
  heap_wf h -> graph_record h g ->
  exists b h',
    BatchGraphData_init [g] h = (Ok b, h')
    /\ h' !! node_features (graph b) = h !! node_features g
    /\ h' !! edge_index (graph b) = h !! edge_index g
    /\ (exists ea eb, edge_features g = Some ea
          /\ edge_features (graph b) = Some eb /\ h' !! eb = h !! ea)
    /\ match graph_features g with
       | None => graph_features (graph b) = None
       | Some ga =>
         exists gb, graph_features (graph b) = Some gb
           /\ h' !! gb = atleast_2d <$> h !! ga
           /\ (forall arr, h !! ga = Some arr -> 2 <= ndim arr ->
               h' !! gb = h !! ga)
       end
    /\ h' !! graph_index b = Some (array_int (replicate (num_nodes g) 0)).
Proof.
  intros Hwf Hrec. apply graph_record_inv in Hrec as Hinv.
  destruct Hinv as [(nfa & Hnf & Snf) (eia & Hei & Dei & S0 & S1)
                    (ea & efa & k & Hef & Hefa & T0 & T1 & Hk) Hgf].
  pose proof (heap_wf_lookup _ _ _ Hwf Hnf) as Wnf.
  pose proof (heap_wf_lookup _ _ _ Hwf Hei) as Wei.
  pose proof (heap_wf_lookup _ _ _ Hwf Hefa) as Wef.
  assert (2 <= ndim eia) as Nei by (apply lookup_ndim in S1; lia).
  assert (2 <= ndim efa) as Nef by (apply lookup_ndim in T1; lia).
  assert (2 <= ndim nfa) as Nnf by (unfold ndim; rewrite Snf; simpl; lia).
  set (o_gf := graph_features g ≫= fun ga => atleast_2d <$> h !! ga).
  assert (Ha : batch_arrays h [g] nfa efa o_gf [eia] eia eia).
  { constructor; simpl.
    - rewrite (array_at_lookup _ _ _ Hnf), vstack_single by done.
      by rewrite atleast_2d_id.
    - rewrite Hef. simpl.
      rewrite (array_at_lookup _ _ _ Hefa), vstack_single by done.
      by rewrite atleast_2d_id.
    - subst o_gf. destruct (graph_features g) as [ga|] eqn:Eg; simpl; [|done].
      destruct (Hgf ga eq_refl) as [garr Hga]. rewrite Hga. simpl.
      exists (atleast_2d garr). split; [done|].
      rewrite (array_at_lookup _ _ _ Hga).
      apply vstack_single. by eapply heap_wf_lookup.
    - unfold shift_edge_index. simpl.
      rewrite (array_at_lookup _ _ _ Hei), add_scalar_zero by done. done.
    - by apply hstack_single.
    - by apply astype_int_id. }
  destruct (batch_run_placed _ _ _ _ _ _ _ _
              (Forall_cons_2 _ _ _ (graph_record_inv _ _ Hrec) (Forall_nil_2 _)) Ha)
    as (b & h' & E & Hp).
  exists b, h'. split; [done|].
  destruct Hp as [_ Pnf Pei (eb & Peb & Pef & _) Pgf Pgi _ _].
  split; [by rewrite Pnf, Hnf|]. split; [by rewrite Pei, Hei|].
  split; [exists ea, eb; by rewrite Pef, Hefa|].
  split.
  - subst o_gf. destruct (graph_features g) as [ga|] eqn:Eg; simpl in *; [|done].
    destruct (Hgf ga eq_refl) as [garr Hga]. rewrite Hga in *. simpl in *.
    destruct Pgf as (gb & Hgb & Pgb & _). exists gb.
    split; [done|]. split; [done|].
    intros arr [= <-] Harr. by rewrite Pgb, atleast_2d_id.
  - rewrite Pgi. simpl. by rewrite app_nil_r.
Qed.

(** C6. For graph records [g0] of 3 nodes with edge index [[0,1],[1,2]]
    and [g1] of 2 nodes with edge index [[0],[1]] whose feature arrays can
    be stacked, batching returns a record of 5 nodes with edge index
    [[0,1,3],[1,2,4]] and graph index [0,0,0,1,1]. *)
Theorem C6_batch_two_graphs h g0 g1 :
  graph_record h g0 -> graph_record h g1 ->
  num_nodes g0 = 3 -> h !! edge_index g0 = Some (ints [2; 2] [0; 1; 1; 2]%Z) ->
  num_nodes g1 = 2 -> h !! edge_index g1 = Some (ints [2; 1] [0; 1]%Z) ->
  stackable [array_at h (node_features g0); array_at h (node_features g1)] ->
  stackable [as_array_val h (edge_features g0);
             as_array_val h (edge_features g1)] ->
  (graph_features g0 = None
   \/ stackable [as_array_val h (graph_features g0);
                 as_array_val h (graph_features g1)]) ->
  exists b h',
    BatchGraphData_init [g0; g1] h = (Ok b, h')
    /\ num_nodes (graph b) = 5
    /\ h' !! edge_index (graph b) = Some (ints [2; 3] [0; 1; 3; 1; 2; 4]%Z)
    /\ h' !! graph_index b = Some (ints [5] [0; 0; 0; 1; 1]%Z).
Proof.
  intros R0 R1 N0 E0 N1 E1 (r_nf & Enf) (r_ef & Eef) Hgf.
  assert (Hgs : Forall (graph_inv h) [g0; g1])
    by (repeat constructor; by apply graph_record_inv).
  assert (exists o_gf,
            match graph_features g0 with
            | Some _ =>
              exists r, o_gf = Some r
                /\ vstack [as_array_val h (graph_features g0);
                           as_array_val h (graph_features g1)] = Ok r
            | None => o_gf = None
            end) as (o_gf & Egf).
  { destruct (graph_features g0) as [ga|] eqn:Eg; [|by exists None].
    destruct Hgf as [?|(r & Er)]; [done|].
    exists (Some r). eauto. }
  assert (Ha : batch_arrays h [g0; g1] r_nf r_ef o_gf
                 [ints [2; 2] [0; 1; 1; 2]%Z; ints [2; 1] [3; 4]%Z]
                 (ints [2; 3] [0; 1; 3; 1; 2; 4]%Z)
                 (ints [2; 3] [0; 1; 3; 1; 2; 4]%Z)).
  { constructor; simpl; try done.
    - unfold shift_edge_index. simpl. rewrite N0.
      rewrite (array_at_lookup _ _ _ E0), (array_at_lookup _ _ _ E1).
      reflexivity. }
  destruct (batch_run_placed _ _ _ _ _ _ _ _ Hgs Ha) as (b & h' & E & Hp).
  exists b, h'. split; [done|].
  destruct (batch_counts _ _ _ _ Hgs E) as [Hn _].
  split; [simpl in Hn; lia|].
  split; [exact (bp_ei _ _ _ _ _ _ _ _ Hp)|].
  rewrite (bp_gi _ _ _ _ _ _ _ _ Hp). simpl. by rewrite N0, N1.
Qed.

End SmallBatches.

(** ** Concrete runs *)

Section ConcreteRuns.

Lemma sample_heap_wf : heap_wf sample_heap.
Proof.
  unfold heap_wf, sample_heap.
  repeat (apply Forall_cons; split;
          [split; [reflexivity|]; repeat (apply Forall_cons; split; [|]);
           try apply Forall_nil_2; simpl; unfold in_int64, int64_min, int64_max;
           try exact I; lia|]).
  apply Forall_nil_2.
Qed.

(** An edge index whose entries are not node numbers of its graph is
    accepted: [[5],[7]] for a graph of 2 nodes. *)
Lemma C3_counterexample :
  exists g arr,
    GraphData_init (PyArray 3) (PyArray 10) (PyArray 5) PyNone sample_heap
    = (Ok g, sample_heap)
    /\ sample_heap !! edge_index g = Some arr
    /\ ~ entries_in_range arr (num_nodes g).
Proof.
  exists sample_out_of_range, (ints [2; 1] [5; 7]%Z).
  split; [reflexivity|]. split; [reflexivity|].
  unfold entries_in_range. simpl. intros HF.
  apply Forall_cons in HF as [(z & [= <-] & Hz) _]. lia.
Qed.

Lemma C3_witness :
  value_valid sample_heap PyNone
  /\ GraphData_init (PyArray 0) (PyArray 1) (PyArray 2) PyNone sample_heap
     = (Ok sample_g0, sample_heap)
  /\ exists arr, sample_heap !! edge_index sample_g0 = Some arr
                 /\ dtype arr = Int64 /\ shape arr !! 0 = Some 2
                 /\ shape arr !! 1 = Some (num_edges sample_g0).
Proof.
  split; [exact I|]. split; [reflexivity|].
  exact (proj1 (C3_edge_index_checked_by_shape_only
                  (PyArray 0) (PyArray 1) (PyArray 2) PyNone
                  sample_heap sample_g0 I eq_refl)).
Defined.

Lemma C8_witness :
  (exists msg,
     GraphData_init (PyArray 0) (PyArray 13) (PyArray 2) PyNone sample_heap
     = (Raise (ValueError msg), sample_heap))
  /\ (exists msg,
        GraphData_init (PyArray 0) (PyArray 1) (PyArray 5) PyNone sample_heap
        = (Raise (ValueError msg), sample_heap)).
Proof.
  split.
  - apply (proj1 (C8_construction_rejects_bad_shapes
                    (PyArray 0) (PyArray 13) (PyArray 2) PyNone sample_heap)
                 13 (ints [3; 2] [0; 1; 1; 2; 2; 0]%Z) 3);
      [reflexivity|reflexivity|reflexivity|lia].
  - apply (proj2 (C8_construction_rejects_bad_shapes
                    (PyArray 0) (PyArray 1) (PyArray 5) PyNone sample_heap)
                 1 (ints [2; 2] [0; 1; 1; 2]%Z) 2 5 (floats [1; 1] [9]%Z) 1);
      [reflexivity|reflexivity|reflexivity|reflexivity|reflexivity
      |reflexivity|lia].
Defined.

Lemma sample_pair_records :
  Forall (graph_record sample_heap) [sample_g0; sample_g1].
Proof. repeat constructor; [apply sample_g0_record|apply sample_g1_record]. Qed.

Lemma C7_witness :
  exists b h',
    Forall (graph_record sample_heap) [sample_g0; sample_g1]
    /\ @BatchGraphData_init no_float_ops [sample_g0; sample_g1] sample_heap
       = (Ok b, h')
    /\ num_nodes (graph b) = 5 /\ num_edges (graph b) = 3.
Proof.
  destruct (@BatchGraphData_init no_float_ops [sample_g0; sample_g1] sample_heap)
    as [[b| |] h'] eqn:E; [|vm_compute in E; discriminate..].
  exists b, h'. split; [exact sample_pair_records|]. split; [reflexivity|].
  exact (@C7_batch_preserves_counts no_float_ops _ _ _ _ sample_pair_records E).
Defined.

(** With a graph without nodes in first position the graph index is
    [1, 1]: one distinct value for two graphs, and 0 does not occur. *)
Lemma C4_counterexample :
  Forall (graph_record sample_heap) [sample_empty; sample_g1]
  /\ field_array graph_index
       (@BatchGraphData_init no_float_ops [sample_empty; sample_g1] sample_heap)
     = Some (array_int [1; 1])
  /\ ~ (forall v, v ∈ [1; 1] <-> v < length [sample_empty; sample_g1]).
Proof.
  split; [repeat constructor; [apply sample_empty_record|apply sample_g1_record]|].
  split; [vm_compute; reflexivity|].
  intros Hv. assert (0 ∈ [1; 1]) as Hin by (apply Hv; simpl; lia).
  apply elem_of_cons in Hin as [?|Hin]; [done|].
  apply elem_of_cons in Hin as [?|Hin]; [done|]. by apply elem_of_nil in Hin.
Qed.

Lemma C4_witness :
  exists b h' gi,
    Forall (graph_record sample_heap) [sample_g0; sample_g1]
    /\ @BatchGraphData_init no_float_ops [sample_g0; sample_g1] sample_heap
       = (Ok b, h')
    /\ h' !! graph_index b = Some (array_int gi)
    /\ length gi = num_nodes (graph b)
    /\ forall v, v ∈ gi <-> v < length [sample_g0; sample_g1].
Proof.
  destruct (@BatchGraphData_init no_float_ops [sample_g0; sample_g1] sample_heap)
    as [[b| |] h'] eqn:E; [|vm_compute in E; discriminate..].
  destruct (@C4_graph_index_blocks no_float_ops _ _ _ _ sample_pair_records E)
    as (gi & Hgi & Hlen & _ & _ & _ & Hall).
  exists b, h', gi. split; [exact sample_pair_records|]. split; [reflexivity|].
  split; [exact Hgi|]. split; [exact Hlen|].
  apply Hall. repeat constructor; simpl; lia.
Defined.

Lemma C9_witness :
  exists b h',
    sample_heap !! 1 = Some (ints [2; 2] [0; 1; 1; 2]%Z)
    /\ Forall (graph_record sample_heap) [sample_g0; sample_g1]
    /\ @BatchGraphData_init no_float_ops [sample_g0; sample_g1] sample_heap
       = (Ok b, h')
    /\ h' !! 1 = Some (ints [2; 2] [0; 1; 1; 2]%Z)
    /\ Forall (fun a => length sample_heap <= a /\ is_Some (h' !! a))
              (batch_refs b).
Proof.
  destruct (@BatchGraphData_init no_float_ops [sample_g0; sample_g1] sample_heap)
    as [[b| |] h'] eqn:E; [|vm_compute in E; discriminate..].
  exists b, h'. split; [reflexivity|]. split; [exact sample_pair_records|].
  split; [reflexivity|].
  destruct (@C9_batch_allocates_only no_float_ops
              [sample_g0; sample_g1] sample_heap) as [Hkeep Hnew].
  split.
  - specialize (Hkeep 1 _ eq_refl). rewrite E in Hkeep. exact Hkeep.
  - exact (proj1 (Hnew b h' sample_pair_records E)).
Defined.

(** A graph feature vector of shape (2,) comes back as a matrix of shape
    (1, 2): not an array equal to the one of the graph. *)
Lemma C5_counterexample :
  graph_record sample_heap sample_g1_vec
  /\ (graph_features sample_g1_vec ≫= fun a => sample_heap !! a)
     = Some (floats [2] [5; 6]%Z)
  /\ field_array_opt (fun b => graph_features (graph b))
       (@BatchGraphData_init no_float_ops [sample_g1_vec] sample_heap)
     = Some (Some (floats [1; 2] [5; 6]%Z))
  /\ floats [1; 2] [5; 6]%Z <> floats [2] [5; 6]%Z.
Proof.
  split; [apply sample_g1_vec_record|]. split; [reflexivity|].
  split; [vm_compute; reflexivity|]. discriminate.
Qed.

Lemma C5_witness :
  exists b h',
    heap_wf sample_heap /\ graph_record sample_heap sample_g1
    /\ @BatchGraphData_init no_float_ops [sample_g1] sample_heap = (Ok b, h')
    /\ h' !! node_features (graph b) = sample_heap !! node_features sample_g1
    /\ h' !! edge_index (graph b) = sample_heap !! edge_index sample_g1
    /\ h' !! graph_index b = Some (array_int [0; 0]).
Proof.
  destruct (@C5_batch_single_graph no_float_ops sample_heap sample_g1
              sample_heap_wf sample_g1_record)
    as (b & h' & E & Hnf & Hei & _ & _ & Hgi).
  exists b, h'. split; [exact sample_heap_wf|].
  split; [exact sample_g1_record|]. split; [exact E|].
  split; [exact Hnf|]. split; [exact Hei|]. exact Hgi.
Defined.

Lemma C6_witness :
  exists b h',
    graph_record sample_heap sample_g0 /\ graph_record sample_heap sample_g1
    /\ @BatchGraphData_init no_float_ops [sample_g0; sample_g1] sample_heap
       = (Ok b, h')
    /\ num_nodes (graph b) = 5
    /\ h' !! edge_index (graph b) = Some (ints [2; 3] [0; 1; 3; 1; 2; 4]%Z)
    /\ h' !! graph_index b = Some (ints [5] [0; 0; 0; 1; 1]%Z).
Proof.
  destruct (@C6_batch_two_graphs no_float_ops sample_heap sample_g0 sample_g1
              sample_g0_record sample_g1_record eq_refl eq_refl eq_refl eq_refl)
    as (b & h' & E & Hn & Hei & Hgi).
  - exists (floats [5; 1] [10; 11; 12; 20; 21]%Z). reflexivity.
  - exists (floats [3; 1] [7; 8; 9]%Z). reflexivity.
  - left. reflexivity.
  - exists b, h'. split; [exact sample_g0_record|].
    split; [exact sample_g1_record|]. split; [exact E|].
    split; [exact Hn|]. split; [exact Hei|]. exact Hgi.
Defined.

End ConcreteRuns.

(** ** More on construction *)

Section ConstructionMore.

Lemma readonly_ret {A} (a : A) : readonly (ret a).
Proof. by intros h. Qed.

Lemma readonly_raise {A} e : readonly (@raise A e).
Proof. by intros h. Qed.

Lemma readonly_lift {A} (r : result A) : readonly (lift r).
Proof. by intros h. Qed.

Lemma readonly_deref a : readonly (deref a).
Proof. intros h. unfold deref. by destruct (h !! a). Qed.

Lemma readonly_bind {A B} (m : M A) (k : A -> M B) :
  readonly m -> (forall a, readonly (k a)) -> readonly (bind m k).
Proof.
  intros Hm Hk h. unfold bind. specialize (Hm h).
  destruct (m h) as [[a|e|] h1]; simpl in *; subst; [apply Hk|done..].
Qed.

Lemma readonly_GraphData_init nf ei ef gf :
  readonly (GraphData_init nf ei ef gf).
Proof.
  unfold GraphData_init, expect_ndarray, unpack2.
  repeat first
    [ apply readonly_ret | apply readonly_raise | apply readonly_lift
    | apply readonly_deref
    | apply readonly_bind; [|intros ?]
    | match goal with
      | |- readonly (match ?x with _ => _ end) => destruct x
      | |- readonly (if ?c then _ else _) => destruct c
      | |- readonly (let '(_, _) := ?p in _) => destruct p
      end ].
Qed.

(** What a successful construction has established, whether or not the
    graph features argument refers to an array of the store. *)
Lemma GraphData_init_Ok_shapes nf ei ef gf h g h' :
  GraphData_init nf ei ef gf h = (Ok g, h') ->
  gf <> PyObject /\ graph_features g = opt_value gf
  /\ (exists a, h !! node_features g = Some a
                /\ shape a = [num_nodes g; num_node_features g])
  /\ (exists a, h !! edge_index g = Some a /\ dtype a = Int64
                /\ shape a !! 0 = Some 2
                /\ shape a !! 1 = Some (num_edges g))
  /\ (exists ea a k, edge_features g = Some ea /\ h !! ea = Some a
                /\ shape a !! 0 = Some (num_edges g)
                /\ shape a !! 1 = Some k
                /\ num_edge_features g = Some k).
Proof.
  unfold GraphData_init. intros E.
  repeat (apply bind_Ok in E; destruct E as (? & ? & ? & E)).
  repeat match goal with
  | E : expect_ndarray _ _ _ = _ |- _ =>
    apply expect_ndarray_Ok in E; destruct E; subst
  end.
  simpl in *. inv_M.
  repeat match goal with
  | E : unpack2 _ _ = _ |- _ => apply unpack2_Ok in E; destruct E; subst
  | E : shape_at _ _ = Ok _ |- _ => apply shape_at_Ok in E
  end.
  destruct ef as [|ea|]; inv_M; try discriminate.
  repeat match goal with
  | E : shape_at _ _ = Ok _ |- _ => apply shape_at_Ok in E
  end.
  match goal with
  | E : match gf with _ => _ end _ = (Ok ?o, ?h1) |- _ =>
    assert (Hgf : o = opt_value gf /\ gf <> PyObject /\ h1 = h)
      by (destruct gf; inv_M; done);
    clear E; destruct Hgf as (-> & Hgf & ->)
  end.
  simpl in *. inv_M.
  repeat match goal with
  | E : shape_at _ _ = Ok _ |- _ => apply shape_at_Ok in E
  | E : negb _ = false |- _ => apply negb_false_iff in E
  | E : (_ =? _) = true |- _ => apply Nat.eqb_eq in E
  | E : bool_decide _ = true |- _ => apply bool_decide_eq_true in E
  end.
  subst. simplify_eq. simpl. eauto 20.
Qed.

(** X1. [GraphData(...)] returns a record exactly when node_features is a
    2-d array, edge_index an int64 array with first dimension 2 and a
    second dimension, edge_features an array with as many rows as the edge
    index has columns and with a second dimension, and graph_features is
    None or an array. The record then holds the very objects passed, and
    its counts are read off their shapes. *)
Theorem GraphData_init_succeeds_iff nf ei ef gf h g h' :
  GraphData_init nf ei ef gf h = (Ok g, h') <->
  h' = h /\ nf = PyArray (node_features g) /\ ei = PyArray (edge_index g)
  /\ (exists ea, ef = PyArray ea /\ edge_features g = Some ea)
  /\ gf <> PyObject /\ graph_features g = opt_value gf
  /\ (exists a, h !! node_features g = Some a
                /\ shape a = [num_nodes g; num_node_features g])
  /\ (exists a, h !! edge_index g = Some a /\ dtype a = Int64
                /\ shape a !! 0 = Some 2
                /\ shape a !! 1 = Some (num_edges g))
  /\ (exists ea a k, edge_features g = Some ea /\ h !! ea = Some a
                /\ shape a !! 0 = Some (num_edges g)
                /\ shape a !! 1 = Some k
                /\ num_edge_features g = Some k).
Proof.
  split.
  - intros E. pose proof (GraphData_init_Ok_shapes _ _ _ _ _ _ _ E)
      as (Hgf & Hg & Hnf & Hei & Hef).
    apply GraphData_init_Ok in E as (-> & -> & -> & Hea & _ & _).
    repeat split; assumption.
  - intros (-> & -> & -> & (ea & -> & Hea) & Hgf & Hg
            & (nfa & Hnf & Snf) & (eia & Hei & Dei & S0 & S1)
            & (ea' & efa & k & Hea' & Hefa & T0 & T1 & Hk)).
    rewrite Hea in Hea'. injection Hea' as <-.
    erewrite GraphData_init_intro by eassumption.
    destruct g; simpl in *; subst. done.
Qed.

(** X2. The constructor only reads: whatever it is given and whatever
    the outcome, the store is afterwards what it was before. *)
Theorem GraphData_init_reads_only nf ei ef gf h :
  (GraphData_init nf ei ef gf h).2 = h.
Proof. apply readonly_GraphData_init. Qed.

(** X3. Shapes the validation lets through end in an IndexError, not in
    a ValueError: a 0-d int64 edge index (line 65); an int64 edge index of
    shape (2,), at line 71 when edge features are given and at line 84
    when they are not; edge features of one dimension whose length is the
    edge count (line 86). *)
Theorem GraphData_init_index_errors nfa eia h :
  (forall nf ef gf arr,
     h !! eia = Some arr -> dtype arr = Int64 -> shape arr = [] ->
     GraphData_init (PyArray nf) (PyArray eia) ef gf h = (Raise IndexError, h))
  /\ (forall nf ea gf arr earr,
        h !! eia = Some arr -> dtype arr = Int64 -> shape arr = [2] ->
        h !! ea = Some earr ->
        GraphData_init (PyArray nf) (PyArray eia) (PyArray ea) gf h
        = (Raise IndexError, h))
  /\ (forall gf arr narr n f,
        h !! eia = Some arr -> dtype arr = Int64 -> shape arr = [2] ->
        h !! nfa = Some narr -> shape narr = [n; f] -> gf <> PyObject ->
        GraphData_init (PyArray nfa) (PyArray eia) PyNone gf h
        = (Raise IndexError, h))
  /\ (forall ea gf arr narr earr n f e rest,
        h !! eia = Some arr -> dtype arr = Int64 ->
        shape arr = 2 :: e :: rest ->
        h !! nfa = Some narr -> shape narr = [n; f] ->
        h !! ea = Some earr -> shape earr = [e] -> gf <> PyObject ->
        GraphData_init (PyArray nfa) (PyArray eia) (PyArray ea) gf h
        = (Raise IndexError, h)).
Proof.
  repeat split.
  - intros nf ef gf arr Ha Hd Hs. run_init.
    rewrite bool_decide_eq_true_2 by done. run_init. by rewrite Hs.
  - intros nf ea gf arr earr Ha Hd Hs Hea. run_init.
    rewrite bool_decide_eq_true_2 by done. run_init. rewrite Hs. run_init.
    done.
  - intros gf arr narr n f Ha Hd Hs Hn Hsn Hgf. run_init.
    rewrite bool_decide_eq_true_2 by done. run_init. rewrite Hs. run_init.
    destruct gf; [| |done]; run_init; done.
  - intros ea gf arr narr earr n f e rest Ha Hd Hs Hn Hsn Hea Hse Hgf.
    run_init. rewrite bool_decide_eq_true_2 by done. run_init.
    rewrite Hs. run_init. rewrite Hse. run_init.
    destruct gf; [| |done]; run_init; rewrite ?Hse; run_init; done.
Qed.

(** X4. Node features that are an array of a rank other than 2 are
    rejected last, by the tuple unpacking of line 83: when every other
    check passes, whether edge features are given or not, the call raises
    a ValueError. *)
Theorem GraphData_init_node_features_rank nfa eia ef gf h narr arr e :
  h !! nfa = Some narr -> ndim narr <> 2 ->
  h !! eia = Some arr -> dtype arr = Int64 ->
  shape arr !! 0 = Some 2 -> shape arr !! 1 = Some e ->
  (ef = PyNone
   \/ exists ea earr, ef = PyArray ea /\ h !! ea = Some earr
                      /\ shape earr !! 0 = Some e) ->
  gf <> PyObject ->
  exists msg,
    GraphData_init (PyArray nfa) (PyArray eia) ef gf h
    = (Raise (ValueError msg), h).
Proof.
  intros Hn Hr Ha Hd S0 S1 Hef Hgf. unfold ndim in Hr.
  destruct gf; [| |done];
    destruct Hef as [->|(ea & earr & -> & Hea & T0)];
    destruct (shape narr) as [|? [|? [|? ?]]] eqn:Hsn; simpl in Hr; try lia;
    eexists; run_init; rewrite bool_decide_eq_true_2 by done; run_init;
    rewrite ?Hsn; run_init; reflexivity.
Qed.

End ConstructionMore.

(** ** More on batching *)

Section BatchingMore.
Context `{Float64Ops}.

Lemma graph_inv_app h new g : graph_inv h g -> graph_inv (h ++ new) g.
Proof.
  intros [(nfa & Hnf & Snf) (eia & Hei & Hrest) (ea & efa & k & Hef & Hefa & Hr)
          Hgf].
  constructor.
  - exists nfa. split; [by apply lookup_app_l_Some|done].
  - exists eia. split; [by apply lookup_app_l_Some|done].
  - exists ea, efa, k. split; [done|]. split; [by apply lookup_app_l_Some|done].
  - intros ga Hga. destruct (Hgf ga Hga) as [x Hx].
    exists x. by apply lookup_app_l_Some.
Qed.


(** X5. Batches compose: after a successful batching the returned record
    is itself a graph record of the final store, with an int64 edge index
    of two rows and edge features of [num_edges] rows, and the graphs it
    was built from still are graph records there. *)
Theorem batch_result_is_graph_record gs h b h' :
  Forall (graph_record h) gs ->
  BatchGraphData_init gs h = (Ok b, h') ->
  graph_record h' (graph b) /\ Forall (graph_record h') gs.
Proof.
  intros Hgs E. apply graph_records_inv in Hgs.
  destruct (BatchGraphData_init_Ok _ _ _ _ Hgs E)
    as (r_nf & r_ef & o_gf & shifted & r_h & r_ei & Ha & Hp).
  split.
  - apply graph_inv_record. exact (bp_inv _ _ _ _ _ _ _ _ Hp).
  - destruct (bp_prefix _ _ _ _ _ _ _ _ Hp) as [new ->].
    eapply Forall_impl; [exact Hgs|]. intros g Hg.
    apply graph_inv_record. by apply graph_inv_app.
Qed.


Lemma map_atleast_2d_id arrs :
  Forall (fun a => 2 <= ndim a) arrs -> map atleast_2d arrs = arrs.
Proof.
  induction 1 as [|a l Ha _ IH]; simpl; [done|].
  by rewrite atleast_2d_id, IH.
Qed.

Lemma batch_widths gs h b h' :
  Forall (graph_inv h) gs ->
  BatchGraphData_init gs h = (Ok b, h') ->
  Forall (fun g => num_node_features g = num_node_features (graph b)
                   /\ num_edge_features g = num_edge_features (graph b)) gs.
Proof.
  intros Hgs E.
  destruct (BatchGraphData_init_Ok _ _ _ _ Hgs E)
    as (r_nf & r_ef & o_gf & shifted & r_h & r_ei & Ha & Hp).
  destruct Ha as [Enf Eef _ _ _ _].
  destruct (nf_rows _ _ Hgs) as [_ Hn2].
  destruct (ef_rows _ _ Hgs) as [_ He2].
  unfold vstack in Enf, Eef.
  rewrite map_atleast_2d_id in Enf, Eef by done.
  apply concatenate_Ok in Enf as (a0 & rest & Ea & _ & Hc & _ & Hs).
  apply concatenate_Ok in Eef as (e0 & erest & Ee & _ & Hce & _ & Hse).
  destruct gs as [|g0 gs']; [done|].
  simpl in Ea, Ee. injection Ea as <- <-. injection Ee as <- <-.
  apply Forall_inv in Hgs as Hg0. apply Forall_inv_tail in Hgs as Hgs'.
  destruct (bp_inv _ _ _ _ _ _ _ _ Hp)
    as [(a & Hnf & Sa) _ (eb & efb & kb & Heb & Hefb & _ & Tb1 & Hkb) _].
  rewrite (bp_nf _ _ _ _ _ _ _ _ Hp) in Hnf. injection Hnf as <-.
  destruct (bp_ef _ _ _ _ _ _ _ _ Hp) as (eb' & Heb' & Hefb' & _).
  rewrite Heb in Heb'. injection Heb' as <-.
  rewrite Hefb in Hefb'. injection Hefb' as ->.
  rewrite (graph_nf_shape _ _ Hg0) in Hs. rewrite Hs in Sa.
  simpl in Sa. injection Sa as _ Hf0.
  destruct (graph_ef_shape _ _ Hg0) as (_ & k0 & Hk0 & Hk0').
  assert (Hkb0 : kb = k0).
  { rewrite Hse in Tb1. rewrite list_lookup_insert_ne in Tb1 by done.
    congruence. }
  subst kb.
  apply check_shapes_None in Hc, Hce.
  constructor; [split; congruence|].
  rewrite Forall_forall. intros g Hg.
  rewrite Forall_forall in Hgs'. specialize (Hgs' _ Hg).
  split.
  - rewrite Forall_forall in Hc.
    destruct (Hc (array_at h (node_features g))) as [_ Hsg].
    { apply list_elem_of_fmap. eauto. }
    rewrite (graph_nf_shape _ _ Hgs'), (graph_nf_shape _ _ Hg0) in Hsg.
    simpl in Hsg. congruence.
  - rewrite Forall_forall in Hce.
    destruct (Hce (as_array_val h (edge_features g))) as [_ Hsg].
    { apply list_elem_of_fmap. eauto. }
    destruct (graph_ef_shape _ _ Hgs') as (_ & k & Hk & Hk').
    assert (k = k0) as ->; [|congruence].
    assert (<[0:=0]> (shape (as_array_val h (edge_features g))) !! 1
            = <[0:=0]> (shape (as_array_val h (edge_features g0))) !! 1)
      as Hl by (by rewrite Hsg).
    rewrite !list_lookup_insert_ne in Hl by done. congruence.
Qed.

(** X6. A successful batching has checked the feature widths: every
    graph of the batch has the node feature width and the edge feature
    width of the batched record. *)
Theorem batch_feature_widths_agree gs h b h' :
  Forall (graph_record h) gs ->
  BatchGraphData_init gs h = (Ok b, h') ->
  Forall (fun g => num_node_features g = num_node_features (graph b)
                   /\ num_edge_features g = num_edge_features (graph b)) gs.
Proof. intros Hgs. apply batch_widths. by apply graph_records_inv. Qed.


(** X8. Whether the batched record has graph features is decided by the
    first graph alone: it has them exactly when the first graph has;
    graph features of later graphs are not looked at when the first has
    none. *)
Theorem batch_graph_features_presence g0 rest h b h' :
  Forall (graph_record h) (g0 :: rest) ->
  BatchGraphData_init (g0 :: rest) h = (Ok b, h') ->
  (graph_features (graph b) = None <-> graph_features g0 = None).
Proof.
  intros Hgs E. apply graph_records_inv in Hgs.
  destruct (BatchGraphData_init_Ok _ _ _ _ Hgs E)
    as (r_nf & r_ef & o_gf & shifted & r_h & r_ei & Ha & Hp).
  pose proof (ba_gf _ _ _ _ _ _ _ _ Ha) as Hgf.
  pose proof (bp_gf _ _ _ _ _ _ _ _ Hp) as Hpf. simpl in Hgf.
  destruct (graph_features g0) as [ga|].
  - destruct Hgf as (r & -> & _). destruct Hpf as (gb & -> & _). done.
  - subst o_gf. by rewrite Hpf.
Qed.

End BatchingMore.

(** ** How batching can fail *)

Section BatchFailures.
Context `{Float64Ops}.





Lemma rmap_exists {A B} (f : A -> result B) l :
  Forall (fun x => exists y, f x = Ok y) l -> exists ys, rmap f l = Ok ys.
Proof.
  induction 1 as [|x l [y Hy] _ [ys IH]]; simpl; [eauto|].
  rewrite Hy, IH. simpl. eauto.
Qed.




Lemma Forall_flat_map_all {A} (P : elem -> Prop) (F : A -> list elem) l :
  (forall x, Forall P (F x)) -> Forall P (flat_map F l).
Proof.
  intros HF. induction l as [|x l IH]; simpl; [constructor|].
  apply Forall_app. split; [apply HF|exact IH].
Qed.

Lemma Forall_chunks (P : elem -> Prop) (c : ndarray -> nat)
    (g : ndarray -> list elem) i arrs :
  Forall (fun a => Forall P (g a)) arrs ->
  Forall P (flat_map (fun a => chunk (c a) i (g a)) arrs).
Proof.
  induction 1 as [|a l Ha _ IH]; simpl; [constructor|].
  apply Forall_app. split; [|exact IH].
  unfold chunk. by apply Forall_take, Forall_drop.
Qed.

(** The elements of a concatenation: for each index of the axes before
    [axis], the blocks of the inputs in order. *)
Lemma concatenate_data arrs axis r :
  concatenate arrs axis = Ok r ->
  exists a0 rest,
    arrs = a0 :: rest
    /\ data r
       = flat_map
           (fun i =>
              flat_map
                (fun a => chunk (size_of (drop axis (shape a))) i
                                (map (cast_elem (result_type arrs)) (data a)))
                arrs)
           (seq 0 (size_of (take axis (shape a0)))).
Proof.
  unfold concatenate. destruct arrs as [|a0 rest]; [done|].
  remember (a0 :: rest) as arrs eqn:Earrs.
  destruct (ndim a0 =? 0); [done|]. destruct (ndim a0 <=? axis); [done|].
  destruct (check_shapes axis (shape a0) rest); [done|].
  intros E. exists a0, rest. split; [done|].
  by injection E as <-.
Qed.

(** What holds of every element of the inputs holds of every element of
    their concatenation. *)
Lemma concatenate_data_Forall (P : elem -> Prop) arrs axis r :
  concatenate arrs axis = Ok r ->
  Forall (fun a => Forall P (map (cast_elem (result_type arrs)) (data a))) arrs ->
  Forall P (data r).
Proof.
  intros E HP. apply concatenate_data in E as (a0 & rest & _ & ->).
  apply Forall_flat_map_all. intros i.
  apply (Forall_chunks P (fun a => size_of (drop axis (shape a)))
           (fun a => map (cast_elem (result_type arrs)) (data a))).
  exact HP.
Qed.





End BatchFailures.

(** ** What the batched arrays hold *)

Section BatchContent.
Context `{Float64Ops}.

(** Element [k] of the block of [x] in a concatenation of blocks. *)
Lemma lookup_flat_map_block {A B} (f : A -> list B) xs : forall i x k,
  xs !! i = Some x -> k < length (f x) ->
  flat_map f xs !! (sum_list (map (fun y => length (f y)) (take i xs)) + k)
  = f x !! k.
Proof.
  induction xs as [|y xs IH]; intros i x k Hi Hk; [done|].
  destruct i as [|i]; simpl in *.
  - injection Hi as ->. by rewrite lookup_app_l.
  - rewrite lookup_app_r by lia.
    replace (length (f y) + _ + k - length (f y))
      with (sum_list (map (fun y => length (f y)) (take i xs)) + k) by lia.
    by apply IH.
Qed.

Lemma chunk_zero_all c (l : list elem) : length l <= c -> chunk c 0 l = l.
Proof. intros Hl. unfold chunk. simpl. rewrite drop_0. by apply take_ge. Qed.

Lemma size_of_2d n f : size_of [n; f] = n * f.
Proof. unfold size_of. simpl. lia. Qed.

Lemma result_type_uniform d arrs :
  arrs <> [] -> Forall (fun a => dtype a = d) arrs -> result_type arrs = d.
Proof.
  intros Hne Hd. induction Hd as [|a l Ha _ IH]; [done|]. simpl.
  destruct l as [|a' l]; simpl in *.
  - rewrite Ha. by destruct d.
  - rewrite IH by done. rewrite Ha. by destruct d.
Qed.

(** [np.vstack] on well-formed arrays of two or more dimensions lists
    their elements one array after the other. *)
Lemma vstack_data arrs r :
  Forall (fun a => 2 <= ndim a /\ wf_array a) arrs ->
  vstack arrs = Ok r ->
  dtype r = result_type arrs
  /\ data r = flat_map (fun a => map (cast_elem (dtype r)) (data a)) arrs.
Proof.
  intros Harrs E. unfold vstack in E.
  rewrite map_atleast_2d_id in E
    by (eapply Forall_impl; [exact Harrs|]; intros a (Ha & _); exact Ha).
  pose proof (concatenate_Ok _ _ _ E) as (_ & _ & _ & _ & _ & Hd & _).
  split; [done|].
  apply concatenate_data in E as (a0 & rest & Earrs & ->).
  rewrite Hd. simpl. rewrite app_nil_r.
  clear Earrs Hd. generalize (result_type arrs). intros rt.
  induction Harrs as [|a l (_ & Hlen & _) _ IH]; simpl; [done|].
  rewrite IH. f_equal. apply chunk_zero_all.
  by rewrite length_map, Hlen, drop_0.
Qed.

(** X10. The batched node features list the node features of the graphs
    one graph after the other, in input order, converted to the common
    dtype: row [j] of graph [i] is row [prefix_offset i + j] of the batch.
    The batched edge features list the edge features of the graphs in the
    same way. When all node feature arrays have one dtype, so has the
    batch and the entries are unchanged. *)
Theorem batched_features_content gs h b h' :
  heap_wf h ->
  Forall (graph_record h) gs ->
  BatchGraphData_init gs h = (Ok b, h') ->
  exists r_nf eb r_ef,
    h' !! node_features (graph b) = Some r_nf
    /\ edge_features (graph b) = Some eb /\ h' !! eb = Some r_ef
    /\ data r_nf
       = flat_map (fun g => map (cast_elem (dtype r_nf))
                                (data (array_at h (node_features g)))) gs
    /\ data r_ef
       = flat_map (fun g => map (cast_elem (dtype r_ef))
                                (data (as_array_val h (edge_features g)))) gs
    /\ (forall i g j c,
          gs !! i = Some g -> j < num_nodes g -> c < num_node_features g ->
          data r_nf !! ((prefix_offset (map num_nodes gs) i + j)
                          * num_node_features (graph b) + c)
          = cast_elem (dtype r_nf)
              <$> data (array_at h (node_features g))
                    !! (j * num_node_features g + c))
    /\ (forall d,
          Forall (fun g => dtype (array_at h (node_features g)) = d) gs ->
          dtype r_nf = d
          /\ data r_nf
             = flat_map (fun g => data (array_at h (node_features g))) gs).
Proof.
  intros Hwf Hgs E. apply graph_records_inv in Hgs.
  destruct (BatchGraphData_init_Ok _ _ _ _ Hgs E)
    as (r_nf & r_ef & o_gf & shifted & r_h & r_ei & Ha & Hp).
  pose proof (batch_widths _ _ _ _ Hgs E) as Hw.
  destruct Ha as [Enf Eef _ _ _ _].
  destruct (bp_ef _ _ _ _ _ _ _ _ Hp) as (eb & Heb & Hefb & _).
  exists r_nf, eb, r_ef.
  split; [exact (bp_nf _ _ _ _ _ _ _ _ Hp)|]. split; [done|]. split; [done|].
  assert (Wnf : Forall (fun a => 2 <= ndim a /\ wf_array a)
                  (map (fun g => array_at h (node_features g)) gs)).
  { apply Forall_fmap. eapply Forall_impl; [exact Hgs|]. intros g Hg. simpl.
    destruct (inv_nf _ _ Hg) as (a & Hl & Hs).
    rewrite (array_at_lookup _ _ _ Hl). split.
    - unfold ndim. rewrite Hs. simpl. lia.
    - by eapply heap_wf_lookup. }
  assert (Wef : Forall (fun a => 2 <= ndim a /\ wf_array a)
                  (map (fun g => as_array_val h (edge_features g)) gs)).
  { apply Forall_fmap. eapply Forall_impl; [exact Hgs|]. intros g Hg. simpl.
    destruct (inv_ef _ _ Hg) as (ea & a & k & -> & Hl & _ & T1 & _). simpl.
    rewrite (array_at_lookup _ _ _ Hl). split.
    - apply lookup_ndim in T1. lia.
    - by eapply heap_wf_lookup. }
  destruct (vstack_data _ _ Wnf Enf) as [Dnf Hdnf].
  destruct (vstack_data _ _ Wef Eef) as [_ Hdef].
  rewrite flat_map_concat_map, map_map, <- flat_map_concat_map in Hdnf, Hdef.
  split; [exact Hdnf|]. split; [exact Hdef|]. split.
  - intros i g j c Hi Hj Hc.
    rewrite Forall_forall in Hw.
    assert (Hlen : forall g', g' ∈ gs ->
              length (map (cast_elem (dtype r_nf))
                          (data (array_at h (node_features g'))))
              = num_nodes g' * num_node_features (graph b)).
    { intros g' Hg'. rewrite length_map.
      rewrite Forall_forall in Hgs. specialize (Hgs _ Hg').
      destruct (inv_nf _ _ Hgs) as (a & Hl & Hs).
      rewrite (array_at_lookup _ _ _ Hl).
      destruct (heap_wf_lookup _ _ _ Hwf Hl) as [-> _].
      rewrite Hs, size_of_2d. by destruct (Hw _ Hg') as [-> _]. }
    assert (Hsum : sum_list
              (map (fun y => length (map (cast_elem (dtype r_nf))
                                         (data (array_at h (node_features y)))))
                   (take i gs))
            = prefix_offset (map num_nodes gs) i * num_node_features (graph b)).
    { unfold prefix_offset. rewrite <- fmap_take.
      assert (forall g', g' ∈ take i gs -> g' ∈ gs) as Hsub.
      { intros g' Hg'. apply list_elem_of_lookup in Hg' as [k Hk].
        apply lookup_take_Some in Hk as [Hk _].
        apply list_elem_of_lookup. eauto. }
      induction (take i gs) as [|g' l IH]; simpl; [done|].
      rewrite Hlen by (apply Hsub; left).
      rewrite IH by (intros g'' Hg''; apply Hsub; by right).
      by rewrite Nat.mul_add_distr_r. }
    assert (g ∈ gs) as Hg by (apply list_elem_of_lookup; eauto).
    destruct (Hw _ Hg) as [Hf _].
    rewrite Hdnf.
    replace ((prefix_offset (map num_nodes gs) i + j)
               * num_node_features (graph b) + c)
      with (sum_list
              (map (fun y => length (map (cast_elem (dtype r_nf))
                                         (data (array_at h (node_features y)))))
                   (take i gs))
            + (j * num_node_features g + c)) by (rewrite Hsum, Hf; lia).
    rewrite (lookup_flat_map_block _ gs i g);
      [by rewrite list_lookup_fmap|done|].
    rewrite Hlen by done. rewrite <- Hf. nia.
  - intros d Hd. destruct gs as [|g0 rest]; [done|].
    assert (dtype r_nf = d) as Hrd.
    { rewrite Dnf. apply result_type_uniform; [done|].
      by apply Forall_fmap. }
    split; [done|]. rewrite Hdnf, Hrd.
    clear -Hd Hgs Hwf.
    induction Hgs as [|g l Hg _ IH]; simpl; [done|].
    apply Forall_cons in Hd as [Hdg Hd]. rewrite IH by done. f_equal.
    destruct (inv_nf _ _ Hg) as (a & Hl & Hs).
    rewrite (array_at_lookup _ _ _ Hl) in *.
    destruct (heap_wf_lookup _ _ _ Hwf Hl) as [_ Hfit].
    rewrite Hdg in Hfit. by apply map_cast_elem_fits.
Qed.

End BatchContent.

(** ** The entries of the batched edge index *)

Section BatchEdges.
Context `{Float64Ops}.

Lemma length_flat_map_sum {A B} (f : A -> list B) xs :
  length (flat_map f xs) = sum_list (map (fun y => length (f y)) xs).
Proof.
  induction xs as [|x xs IH]; simpl; [done|]. by rewrite length_app, IH.
Qed.

Lemma map_cast_Int64 (l : list elem) : map (cast_elem Int64) l = l.
Proof. induction l as [|x l IH]; simpl; [done|]. by rewrite IH. Qed.

Lemma prefix_offset_le l i n :
  l !! i = Some n -> prefix_offset l i + n <= sum_list l.
Proof.
  unfold prefix_offset. revert i.
  induction l as [|m l IH]; intros [|i] Hi; simpl in *; try done.
  - injection Hi as ->. lia.
  - specialize (IH i Hi). lia.
Qed.

(** Entry [i] of the list the graphs are zipped with. *)
Lemma lookup_shift_list (gs : list GraphData) i g :
  gs !! i = Some g ->
  zip (0 :: removelast (map num_nodes gs)) gs !! i
  = Some (prev_num_node (map num_nodes gs) i, g).
Proof.
  intros Hi. rewrite lookup_zip_with, Hi.
  pose proof (length_shift_list gs) as Hlen.
  apply lookup_lt_Some in Hi as Hlt.
  destruct (nth_lookup_or_length (0 :: removelast (map num_nodes gs)) i 0)
    as [->|?]; [done|lia].
Qed.

(** The shifted copies of 2-d edge indices: shapes and sizes. *)
Lemma shifted_2d h gs : forall (l : list nat) shifted,
  heap_wf h -> Forall (graph_inv h) gs ->
  Forall (fun g => ndim (array_at h (edge_index g)) = 2) gs ->
  rmap (shift_edge_index h) (zip l gs) = Ok shifted ->
  Forall (fun a => exists e, shape a = [2; e] /\ length (data a) = 2 * e)
         shifted.
Proof.
  intros l shifted Hwf Hgs. revert l shifted.
  induction Hgs as [|g gs Hg _ IH]; intros [|p l] shifted H2 E; simpl in *;
    try (injection E as <-; constructor).
  apply rbind_Ok in E as (y & Ey & E).
  apply rbind_Ok in E as (ys & Eys & E). injection E as <-.
  apply Forall_cons in H2 as [Hg2 H2].
  constructor; [|by eapply IH].
  unfold shift_edge_index in Ey. simpl in Ey.
  apply add_scalar_Ok in Ey as (_ & Hs & Hd).
  destruct (inv_ei _ _ Hg) as (a & Ha & _ & S0 & S1).
  rewrite (array_at_lookup _ _ _ Ha) in *.
  destruct (heap_wf_lookup _ _ _ Hwf Ha) as [Hlen _].
  unfold ndim in Hg2.
  destruct (shape a) as [|s0 [|s1 [|? ?]]] eqn:Es; simpl in *; try lia.
  injection S0 as ->. exists s1. split; [done|].
  rewrite <- (Forall2_length _ _ _ Hd), Hlen. unfold size_of. simpl. lia.
Qed.

Lemma chunk_row_length e r (d : list elem) :
  length d = 2 * e -> r < 2 -> length (chunk e r d) = e.
Proof.
  intros Hd Hr. unfold chunk. rewrite length_take, length_drop. nia.
Qed.

Lemma chunk_row_lookup e r j (d : list elem) :
  j < e -> chunk e r d !! j = d !! (r * e + j).
Proof.
  intros Hj. unfold chunk. by rewrite lookup_take_lt, lookup_drop.
Qed.

(** X11. For graph records whose edge indices are 2-d, the batched
    edge index is the int64 array of shape (2, num_edges) in which column
    [j] of graph [i] is column [j] after the columns of the graphs before
    it, with the number the code pairs with graph [i] added to both
    entries in int64 arithmetic: 0 for the first graph, the node count of
    graph [i - 1] for the others. *)
Theorem batched_edge_index_entries gs h b h' :
  heap_wf h ->
  Forall (graph_record h) gs ->
  Forall (fun g => ndim (array_at h (edge_index g)) = 2) gs ->
  BatchGraphData_init gs h = (Ok b, h') ->
  exists arr,
    h' !! edge_index (graph b) = Some arr
    /\ dtype arr = Int64
    /\ shape arr = [2; num_edges (graph b)]
    /\ forall i g r j z,
         gs !! i = Some g -> r < 2 -> j < num_edges g ->
         data (array_at h (edge_index g)) !! (r * num_edges g + j)
         = Some (EInt z) ->
         data arr !! (r * num_edges (graph b)
                        + (prefix_offset (map num_edges gs) i + j))
         = Some (EInt (wrap64
                         (z + Z.of_nat (prev_num_node (map num_nodes gs) i)))).
Proof.
  intros Hwf Hgs H2d E. apply graph_records_inv in Hgs.
  destruct (BatchGraphData_init_Ok _ _ _ _ Hgs E)
    as (r_nf & r_ef & o_gf & shifted & r_h & r_ei & Ha & Hp).
  destruct (batch_counts _ _ _ _ Hgs E) as [_ HE].
  destruct (batch_arrays_shapes _ _ _ _ _ _ _ _ Hgs Ha)
    as (_ & Dei & _ & _ & _ & _).
  destruct Ha as [_ _ _ Esh Eh Eei].
  destruct (shifted_shapes _ _ _ _ Hgs (length_shift_list gs) Esh)
    as [Hcols Hs2].
  pose proof (shifted_2d _ _ _ _ Hwf Hgs H2d Esh) as Hsh.
  pose proof (rmap_Ok _ _ _ Esh) as F2.
  assert (Forall (fun a => 2 <= ndim a) shifted) as Hn2
    by (eapply Forall_impl; [exact Hs2|]; intros a (Ha & _); exact Ha).
  assert (Forall (fun a => dtype a = Int64) shifted) as Hd64
    by (eapply Forall_impl; [exact Hs2|]; intros a (_ & Ha & _); exact Ha).
  destruct (hstack_cols _ _ Hn2 Eh) as (Hc1 & Dh & Hother).
  rewrite (result_type_Int64 _ Hd64) in Dh.
  apply astype_int_Ok in Eei as (_ & Sei & Fei).
  (* the stack is a concatenation along axis 1 *)
  assert (concatenate shifted 1 = Ok r_h) as Ec.
  { unfold hstack in Eh.
    assert (map atleast_1d shifted = shifted) as Hid.
    { clear -Hn2. induction Hn2 as [|a l Ha _ IH]; simpl; [done|].
      rewrite atleast_1d_id by lia. by rewrite IH. }
    rewrite Hid in Eh. destruct Hn2 as [|a l Ha _]; [done|].
    destruct (ndim a =? 1) eqn:E1; [apply Nat.eqb_eq in E1; lia|done]. }
  pose proof (concatenate_Ok _ _ _ Ec)
    as (a0 & rest & Esh0 & _ & _ & _ & Shape).
  pose proof (concatenate_data _ _ _ Ec) as (a0' & rest' & Esh0' & Data).
  rewrite Esh0 in Esh0'. injection Esh0' as <- <-.
  rewrite (result_type_Int64 _ Hd64) in Data.
  assert (exists e0, shape a0 = [2; e0]) as [e0 Sa0].
  { rewrite Esh0 in Hsh. apply Forall_inv in Hsh as (e0 & ? & _). eauto. }
  rewrite Sa0 in Shape, Data. simpl in Shape.
  rewrite Hcols, <- HE in Shape.
  exists r_ei. split; [exact (bp_ei _ _ _ _ _ _ _ _ Hp)|]. split; [done|].
  split; [by rewrite Sei, Shape|].
  intros i g r j z Hi Hr Hj Hz.
  (* the block of row [r] *)
  set (B := fun r : nat =>
              flat_map (fun a => chunk (size_of (drop 1 (shape a))) r
                                       (map (cast_elem Int64) (data a)))
                       shifted) in *.
  assert (Hblk : forall r', r' < 2 ->
            map (fun a => length (chunk (size_of (drop 1 (shape a))) r'
                                        (map (cast_elem Int64) (data a))))
                shifted
            = map num_edges gs).
  { intros r' Hr'. rewrite <- Hcols. clear -Hsh Hr'.
    induction Hsh as [|a l (e & Sa & La) _ IH]; simpl; [done|].
    rewrite IH. f_equal. rewrite Sa, map_cast_Int64. simpl.
    unfold size_of. simpl. rewrite Nat.mul_1_r. by apply chunk_row_length. }
  assert (HlenB : forall r', r' < 2 -> length (B r') = num_edges (graph b)).
  { intros r' Hr'. unfold B. rewrite length_flat_map_sum, Hblk by done.
    by rewrite HE. }
  assert (Hpre : prefix_offset (map num_edges gs) i + num_edges g
                 <= num_edges (graph b)).
  { rewrite HE. apply prefix_offset_le. by rewrite list_lookup_fmap, Hi. }
  (* the element in the shifted array *)
  pose proof (lookup_shift_list _ _ _ Hi) as Hzip.
  destruct (Forall2_lookup_l _ _ _ _ _ F2 Hzip) as (a & Hai & Hshift).
  unfold shift_edge_index in Hshift. simpl in Hshift.
  apply add_scalar_Ok in Hshift as (_ & Sa & Fa).
  rewrite Forall_forall in Hgs.
  assert (g ∈ gs) as Hg by (apply list_elem_of_lookup; eauto).
  destruct (graph_ei_shape _ _ (Hgs _ Hg)) as (Dg & _ & S1).
  rewrite Dg in Fa.
  destruct (Forall2_lookup_l _ _ _ _ _ Fa Hz) as (y & Hy & Hadd).
  simpl in Hadd. injection Hadd as <-.
  assert (size_of (drop 1 (shape a)) = num_edges g) as Hca.
  { rewrite Forall_forall in Hsh.
    destruct (Hsh a) as (e & Se & _); [apply list_elem_of_lookup; eauto|].
    rewrite Sa in Se. rewrite Se in S1. simpl in S1. injection S1 as ->.
    rewrite Sa, Se. unfold size_of. simpl. lia. }
  (* position in the concatenation *)
  assert (data r_h !! (r * num_edges (graph b)
                         + (prefix_offset (map num_edges gs) i + j))
          = Some (EInt (wrap64
                          (z + Z.of_nat (prev_num_node (map num_nodes gs) i)))))
    as Hrh.
  { rewrite Data.
    replace (r * num_edges (graph b))
      with (sum_list (map (fun y => length (B y))
                          (take r (seq 0 (size_of (take 1 [2; e0]))))))
      by (destruct r as [|[|r]]; simpl; [done|rewrite HlenB; lia|lia]).
    rewrite (lookup_flat_map_block B _ r r);
      [|destruct r as [|[|?]]; [done|done|lia]|rewrite HlenB by done; lia].
    unfold B.
    replace (prefix_offset (map num_edges gs) i)
      with (sum_list
              (map (fun a => length (chunk (size_of (drop 1 (shape a))) r
                                           (map (cast_elem Int64) (data a))))
                   (take i shifted))).
    2:{ unfold prefix_offset. rewrite <- (Hblk r Hr).
        by rewrite <- fmap_take. }
    rewrite (lookup_flat_map_block _ shifted i a);
      [|done|rewrite map_cast_Int64, Hca].
    - rewrite map_cast_Int64, Hca, chunk_row_lookup by done. exact Hy.
    - rewrite chunk_row_length; [done| |done].
      rewrite Forall_forall in Hsh.
      destruct (Hsh a) as (e & Se & Le); [apply list_elem_of_lookup; eauto|].
      rewrite Se in Hca. unfold size_of in Hca. simpl in Hca. lia. }
  destruct (Forall2_lookup_l _ _ _ _ _ Fei Hrh) as (y & Hy' & Hast).
  rewrite Dh in Hast. simpl in Hast. by injection Hast as <-.
Qed.

End BatchEdges.

(** ** Offsets and node numbers *)

Section BatchOffsets.
Context `{Float64Ops}.

Lemma prev_num_node_0 nn : prev_num_node nn 0 = 0.
Proof. done. Qed.

Lemma prev_num_node_S nn k :
  S k < length nn -> prev_num_node nn (S k) = nth k nn 0.
Proof.
  intros Hk. unfold prev_num_node.
  rewrite !nth_lookup, shift_offset_is_previous_count by done. done.
Qed.

Lemma prefix_offset_S nn k :
  k < length nn -> prefix_offset nn (S k) = prefix_offset nn k + nth k nn 0.
Proof.
  unfold prefix_offset. revert k.
  induction nn as [|n nn IH]; intros [|k] Hk; simpl in *; try lia.
  rewrite IH by lia. lia.
Qed.

Lemma sum_list_adjacent (l : list nat) k a c :
  l !! k = Some a -> l !! S k = Some c -> a + c <= sum_list l.
Proof.
  revert k. induction l as [|n l IH]; intros [|k] Ha Hc; simpl in *; try done.
  - injection Ha as ->. destruct l as [|m l]; simpl in *; [done|].
    injection Hc as ->. lia.
  - specialize (IH k Ha Hc). lia.
Qed.

Lemma sum_list_lookup_le (l : list nat) k a :
  l !! k = Some a -> a <= sum_list l.
Proof.
  revert k. induction l as [|n l IH]; intros [|k] Ha; simpl in *; try done.
  - injection Ha as ->. lia.
  - specialize (IH k Ha). lia.
Qed.

(** The number paired with a graph and the node count of that graph
    together never exceed the batched node count. *)
Lemma prev_num_node_bound (gs : list GraphData) i g :
  gs !! i = Some g ->
  prev_num_node (map num_nodes gs) i + num_nodes g
  <= sum_list (map num_nodes gs).
Proof.
  intros Hi. assert (map num_nodes gs !! i = Some (num_nodes g)) as Hn
    by (by rewrite list_lookup_fmap, Hi).
  destruct i as [|k].
  - rewrite prev_num_node_0. simpl. by eapply sum_list_lookup_le.
  - rewrite prev_num_node_S by (by eapply lookup_lt_Some).
    assert (k < length (map num_nodes gs)) as Hk
      by (apply lookup_lt_Some in Hn; lia).
    destruct (lookup_lt_is_Some_2 _ _ Hk) as [a Ha].
    rewrite (nth_lookup_Some _ _ _ _ Ha). by eapply sum_list_adjacent.
Qed.

(** X12. Batching keeps edge references inside the batch: when every
    entry of every input edge index is a node number of its own graph and
    the batched node count fits int64, every entry of the batched edge
    index is a node number of the batch. *)
Theorem batched_edge_index_in_range gs h b h' :
  Forall (graph_record h) gs ->
  Forall (fun g => entries_in_range (array_at h (edge_index g)) (num_nodes g))
         gs ->
  (Z.of_nat (sum_list (map num_nodes gs)) <= int64_max)%Z ->
  BatchGraphData_init gs h = (Ok b, h') ->
  exists arr,
    h' !! edge_index (graph b) = Some arr
    /\ entries_in_range arr (num_nodes (graph b)).
Proof.
  intros Hgs Hrange Hmax E. apply graph_records_inv in Hgs.
  destruct (BatchGraphData_init_Ok _ _ _ _ Hgs E)
    as (r_nf & r_ef & o_gf & shifted & r_h & r_ei & Ha & Hp).
  destruct (batch_counts _ _ _ _ Hgs E) as [HN _].
  destruct Ha as [_ _ _ Esh Eh Eei].
  destruct (shifted_shapes _ _ _ _ Hgs (length_shift_list gs) Esh)
    as [_ Hs2].
  pose proof (rmap_Ok _ _ _ Esh) as F2.
  exists r_ei. split; [exact (bp_ei _ _ _ _ _ _ _ _ Hp)|].
  set (total := sum_list (map num_nodes gs)) in *.
  set (P := fun x : elem =>
              exists z, x = EInt z /\ (0 <= z < Z.of_nat total)%Z).
  (* the shifted arrays *)
  assert (Hshift : Forall (fun a => Forall P (data a)) shifted).
  { apply Forall_lookup. intros i a Hai.
    destruct (Forall2_lookup_r _ _ _ _ _ F2 Hai) as ([p g] & Hzip & Hs).
    pose proof Hzip as Hzip'.
    apply lookup_zip_with_Some in Hzip' as (p' & g' & [= <- <-] & _ & Hi).
    rewrite (lookup_shift_list _ _ _ Hi) in Hzip. injection Hzip as <-.
    pose proof (prev_num_node_bound _ _ _ Hi) as Hb. fold total in Hb.
    unfold shift_edge_index in Hs. simpl in Hs.
    apply add_scalar_Ok in Hs as (_ & _ & Fa).
    assert (g ∈ gs) as Hg by (apply list_elem_of_lookup; eauto).
    rewrite Forall_forall in Hgs, Hrange.
    destruct (graph_ei_shape _ _ (Hgs _ Hg)) as (Dg & _).
    rewrite Dg in Fa. specialize (Hrange _ Hg). unfold entries_in_range in Hrange.
    apply Forall_lookup. intros k y Hy.
    destruct (Forall2_lookup_r _ _ _ _ _ Fa Hy) as (x & Hx & Hadd).
    rewrite Forall_lookup in Hrange.
    destruct (Hrange _ _ Hx) as (z & -> & Hz).
    simpl in Hadd. injection Hadd as <-.
    unfold int64_max in Hmax.
    rewrite wrap64_in_range by (unfold in_int64, int64_min, int64_max; lia).
    eexists. split; [done|]. lia. }
  (* their stack *)
  assert (Hd64 : Forall (fun a => dtype a = Int64) shifted)
    by (eapply Forall_impl; [exact Hs2|]; intros a (_ & Ha & _); exact Ha).
  assert (Hn2 : Forall (fun a => 2 <= ndim a) shifted)
    by (eapply Forall_impl; [exact Hs2|]; intros a (Ha & _); exact Ha).
  destruct (hstack_cols _ _ Hn2 Eh) as (_ & Dh & _).
  rewrite (result_type_Int64 _ Hd64) in Dh.
  assert (Forall P (data r_h)) as Hrh.
  { unfold hstack in Eh.
    assert (map atleast_1d shifted = shifted) as Hid.
    { clear -Hn2. induction Hn2 as [|a l Ha _ IH]; simpl; [done|].
      rewrite atleast_1d_id by lia. by rewrite IH. }
    rewrite Hid in Eh.
    assert (exists ax, concatenate shifted ax = Ok r_h) as [ax Ec].
    { destruct shifted as [|a l]; [eauto|]. destruct (ndim a =? 1); eauto. }
    eapply concatenate_data_Forall; [exact Ec|].
    rewrite (result_type_Int64 _ Hd64).
    eapply Forall_impl; [exact Hshift|]. intros a Ha.
    by rewrite map_cast_Int64. }
  (* and its int64 copy *)
  apply astype_int_Ok in Eei as (_ & _ & Fei). rewrite Dh in Fei.
  unfold entries_in_range. rewrite HN. fold total.
  apply Forall_lookup. intros k y Hy.
  destruct (Forall2_lookup_r _ _ _ _ _ Fei Hy) as (x & Hx & Hast).
  rewrite Forall_lookup in Hrh. destruct (Hrh _ _ Hx) as (z & -> & Hz).
  simpl in Hast. injection Hast as <-. by exists z.
Qed.

(** X13. The number the code adds to the edge index of graph [i] is the
    sum of the node counts of the graphs before it exactly for the first
    two graphs and, for a later graph, when all graphs before its
    predecessor have no nodes. *)
Theorem prev_num_node_is_prefix_offset_iff (nn : list nat) i :
  i < length nn ->
  (prev_num_node nn i = prefix_offset nn i
   <-> i <= 1 \/ prefix_offset nn (i - 1) = 0).
Proof.
  intros Hi. destruct i as [|k].
  - rewrite prev_num_node_0. unfold prefix_offset. simpl. split; [lia|done].
  - rewrite prev_num_node_S by done. rewrite prefix_offset_S by lia.
    replace (S k - 1) with k by lia. split.
    + intros Heq. right. lia.
    + intros [Hk|Hk]; [|lia].
      assert (k = 0) as -> by lia. unfold prefix_offset. simpl. lia.
Qed.

End BatchOffsets.

(** ** The conversion methods *)

Section ConversionFacts.
Context `{Libraries}.

Lemma load_torch_in_to_dgl_graph :
  load_name ["self"; "DGLGraph"; "g"]%string "torch"
  = Raises (NameError "torch").
Proof. reflexivity. Qed.

Lemma load_torch_in_to_pyg_graph :
  load_name ["self"; "torch"; "Data"]%string "torch" = Returns tt.
Proof. reflexivity. Qed.

Lemma obind_Returns {A B} (o : outcome A) (k : A -> outcome B) b :
  obind o k = Returns b -> exists a, o = Returns a /\ k a = Returns b.
Proof. destruct o; simpl; intros E; try discriminate. eauto. Qed.

(** X14. [to_dgl_graph] never returns a graph. Without DGL it raises the
    ValueError of line 121. With DGL, and when the calls of lines 123-125
    return, line 126 reads the name [torch], which the method does not
    import and the module does not bind: a NameError. *)
Theorem to_dgl_graph_never_returns h self :
  (forall g, to_dgl_graph h self <> Returns g)
  /\ (import_DGLGraph = ModuleNotFound ->
      to_dgl_graph h self
      = Raises (Std (ValueError "This function requires DGL to be installed.")))
  /\ (forall g0 g1 g2 ei u v,
        import_DGLGraph = Imported ->
        DGLGraph = Returns g0 ->
        add_nodes g0 (num_nodes self) = Returns g1 ->
        h !! edge_index self = Some ei ->
        getitem ei 0 = Ok u -> getitem ei 1 = Ok v ->
        add_edges g1 u v = Returns g2 ->
        to_dgl_graph h self = Raises (NameError "torch")).
Proof.
  split; [|split].
  - intros g E. unfold to_dgl_graph in E.
    repeat (apply obind_Returns in E; destruct E as (? & ? & E)).
    match goal with
    | Ht : torch_from_numpy _ h (node_features self) = Returns _ |- _ =>
      unfold torch_from_numpy in Ht;
      rewrite load_torch_in_to_dgl_graph in Ht; discriminate
    end.
  - intros Hi. unfold to_dgl_graph. simpl. by rewrite Hi.
  - intros g0 g1 g2 ei u v Hi Hg0 Hg1 Hei Hu Hv Hg2.
    unfold to_dgl_graph. simpl. rewrite Hi. simpl.
    rewrite Hg0. simpl. rewrite Hg1. simpl.
    unfold read. rewrite Hei. simpl. rewrite Hu, Hv. simpl.
    rewrite Hg2. simpl. done.
Qed.

(** X15. [to_pyg_graph] raises the ValueError of line 100 when PyTorch or
    PyTorch Geometric is not installed. On a graph record, with both
    installed, it converts the node features, the edge index and the edge
    features of the record, in this order, and hands all three to [Data]:
    the [edge_attr=None] branch is never taken, since every record has
    edge features. *)
Theorem to_pyg_graph_on_record h self :
  ((import_torch = ModuleNotFound
    \/ (import_torch = Imported /\ import_Data = ModuleNotFound)) ->
   to_pyg_graph h self
   = Raises (Std (ValueError
                    "This function requires PyTorch Geometric to be installed.")))
  /\ (graph_record h self ->
      import_torch = Imported -> import_Data = Imported ->
      exists ea nfa eia efa,
        edge_features self = Some ea
        /\ h !! node_features self = Some nfa
        /\ h !! edge_index self = Some eia
        /\ h !! ea = Some efa
        /\ to_pyg_graph h self
           = obind (from_numpy (node_features self) nfa) (fun x =>
             obind (from_numpy (edge_index self) eia) (fun ei =>
             obind (from_numpy ea efa) (fun t =>
             Data x ei (Some t))))).
Proof.
  split.
  - intros [Ht|[Ht Hd]]; unfold to_pyg_graph; simpl; rewrite Ht; [done|].
    by rewrite Hd.
  - intros Hrec Ht Hd. apply graph_record_inv in Hrec.
    destruct Hrec as [(nfa & Hnf & _) (eia & Hei & _)
                      (ea & efa & k & Hea & Hefa & _) _].
    exists ea, nfa, eia, efa. repeat (split; [done|]).
    unfold to_pyg_graph. simpl. rewrite Ht, Hd. simpl.
    unfold torch_from_numpy. rewrite load_torch_in_to_pyg_graph. simpl.
    unfold read. rewrite Hnf, Hei, Hea, Hefa. simpl.
    destruct (from_numpy (node_features self) nfa); simpl; [|done..].
    destruct (from_numpy (edge_index self) eia); simpl; [|done..].
    destruct (from_numpy ea efa); simpl; done.
Qed.

End ConversionFacts.

(** ** Concrete runs of the further properties *)

Section MoreConcreteRuns.

Lemma GraphData_init_succeeds_iff_witness :
  GraphData_init (PyArray 0) (PyArray 1) (PyArray 2) PyNone sample_heap
  = (Ok sample_g0, sample_heap)
  /\ exists a, sample_heap !! node_features sample_g0 = Some a
               /\ shape a = [num_nodes sample_g0; num_node_features sample_g0].
Proof.
  split; [reflexivity|].
  destruct (proj1 (GraphData_init_succeeds_iff
                     (PyArray 0) (PyArray 1) (PyArray 2) PyNone
                     sample_heap sample_g0 sample_heap) eq_refl)
    as (_ & _ & _ & _ & _ & _ & Hnf & _).
  exact Hnf.
Defined.

Lemma GraphData_init_index_errors_witness :
  GraphData_init (PyArray 0) (PyArray 1) (PyArray 6) PyNone rank_heap
  = (Raise IndexError, rank_heap)
  /\ GraphData_init (PyArray 0) (PyArray 2) (PyArray 6) PyNone rank_heap
     = (Raise IndexError, rank_heap)
  /\ GraphData_init (PyArray 0) (PyArray 2) PyNone PyNone rank_heap
     = (Raise IndexError, rank_heap)
  /\ GraphData_init (PyArray 0) (PyArray 3) (PyArray 4) PyNone rank_heap
     = (Raise IndexError, rank_heap).
Proof.
  split; [|split; [|split]].
  - apply (proj1 (GraphData_init_index_errors 0 1 rank_heap)
             0 (PyArray 6) PyNone (ints [] [7]%Z));
      reflexivity.
  - apply (proj1 (proj2 (GraphData_init_index_errors 0 2 rank_heap))
             0 6 PyNone (ints [2] [0; 1]%Z) (floats [1; 1] [9]%Z));
      reflexivity.
  - apply (proj1 (proj2 (proj2 (GraphData_init_index_errors 0 2 rank_heap)))
             PyNone (ints [2] [0; 1]%Z) (floats [2; 1] [1; 2]%Z) 2 1);
      [reflexivity..|discriminate].
  - apply (proj2 (proj2 (proj2 (GraphData_init_index_errors 0 3 rank_heap)))
             4 PyNone (ints [2; 1] [0; 1]%Z) (floats [2; 1] [1; 2]%Z)
             (floats [1] [9]%Z) 2 1 1 []);
      [reflexivity..|discriminate].
Defined.

Lemma GraphData_init_node_features_rank_witness :
  exists msg,
    GraphData_init (PyArray 5) (PyArray 3) PyNone PyNone rank_heap
    = (Raise (ValueError msg), rank_heap).
Proof.
  apply (GraphData_init_node_features_rank 5 3 PyNone PyNone rank_heap
           (floats [3] [1; 2; 3]%Z) (ints [2; 1] [0; 1]%Z) 1);
    [reflexivity|unfold ndim; simpl; lia|reflexivity|reflexivity|reflexivity
    |reflexivity|by left|discriminate].
Defined.

Lemma batch_result_is_graph_record_witness :
  exists b h',
    Forall (graph_record sample_heap) [sample_g0; sample_g1]
    /\ @BatchGraphData_init no_float_ops [sample_g0; sample_g1] sample_heap
       = (Ok b, h')
    /\ graph_record h' (graph b)
    /\ Forall (graph_record h') [sample_g0; sample_g1].
Proof.
  destruct (@BatchGraphData_init no_float_ops [sample_g0; sample_g1] sample_heap)
    as [[b| |] h'] eqn:E; [|vm_compute in E; discriminate..].
  exists b, h'. split; [exact sample_pair_records|]. split; [reflexivity|].
  exact (@batch_result_is_graph_record no_float_ops _ _ _ _
           sample_pair_records E).
Defined.

Lemma batch_feature_widths_agree_witness :
  exists b h',
    Forall (graph_record sample_heap) [sample_g0; sample_g1]
    /\ @BatchGraphData_init no_float_ops [sample_g0; sample_g1] sample_heap
       = (Ok b, h')
    /\ Forall (fun g => num_node_features g = num_node_features (graph b)
                        /\ num_edge_features g = num_edge_features (graph b))
              [sample_g0; sample_g1].
Proof.
  destruct (@BatchGraphData_init no_float_ops [sample_g0; sample_g1] sample_heap)
    as [[b| |] h'] eqn:E; [|vm_compute in E; discriminate..].
  exists b, h'. split; [exact sample_pair_records|]. split; [reflexivity|].
  exact (@batch_feature_widths_agree no_float_ops _ _ _ _
           sample_pair_records E).
Defined.



Lemma sample_mixed_records :
  Forall (graph_record sample_heap) [sample_g0; sample_g1_vec].
Proof.
  repeat constructor; [apply sample_g0_record|apply sample_g1_vec_record].
Qed.

Lemma batch_graph_features_presence_witness :
  exists b h',
    Forall (graph_record sample_heap) [sample_g0; sample_g1_vec]
    /\ @BatchGraphData_init no_float_ops [sample_g0; sample_g1_vec] sample_heap
       = (Ok b, h')
    /\ graph_features sample_g1_vec = Some 6
    /\ graph_features (graph b) = None.
Proof.
  destruct (@BatchGraphData_init no_float_ops [sample_g0; sample_g1_vec]
              sample_heap) as [[b| |] h'] eqn:E;
    [|vm_compute in E; discriminate..].
  exists b, h'. split; [exact sample_mixed_records|]. split; [reflexivity|].
  split; [reflexivity|].
  exact (proj2 (@batch_graph_features_presence no_float_ops _ _ _ _ _
                  sample_mixed_records E) eq_refl).
Defined.


Lemma batched_features_content_witness :
  exists b h' r_nf,
    heap_wf sample_heap
    /\ Forall (graph_record sample_heap) [sample_g0; sample_g1]
    /\ @BatchGraphData_init no_float_ops [sample_g0; sample_g1] sample_heap
       = (Ok b, h')
    /\ h' !! node_features (graph b) = Some r_nf
    /\ data r_nf
       = flat_map (fun g => map (@cast_elem no_float_ops (dtype r_nf))
                                (data (array_at sample_heap (node_features g))))
                  [sample_g0; sample_g1].
Proof.
  destruct (@BatchGraphData_init no_float_ops [sample_g0; sample_g1] sample_heap)
    as [[b| |] h'] eqn:E; [|vm_compute in E; discriminate..].
  destruct (@batched_features_content no_float_ops _ _ _ _
              sample_heap_wf sample_pair_records E)
    as (r_nf & eb & r_ef & Hnf & _ & _ & Hd & _).
  exists b, h', r_nf. split; [exact sample_heap_wf|].
  split; [exact sample_pair_records|]. split; [reflexivity|].
  split; [exact Hnf|exact Hd].
Defined.

Lemma sample_pair_2d :
  Forall (fun g => ndim (array_at sample_heap (edge_index g)) = 2)
         [sample_g0; sample_g1].
Proof. repeat constructor. Qed.

Lemma batched_edge_index_entries_witness :
  exists b h' arr,
    heap_wf sample_heap
    /\ Forall (graph_record sample_heap) [sample_g0; sample_g1]
    /\ Forall (fun g => ndim (array_at sample_heap (edge_index g)) = 2)
              [sample_g0; sample_g1]
    /\ @BatchGraphData_init no_float_ops [sample_g0; sample_g1] sample_heap
       = (Ok b, h')
    /\ h' !! edge_index (graph b) = Some arr
    /\ shape arr = [2; num_edges (graph b)].
Proof.
  destruct (@BatchGraphData_init no_float_ops [sample_g0; sample_g1] sample_heap)
    as [[b| |] h'] eqn:E; [|vm_compute in E; discriminate..].
  destruct (@batched_edge_index_entries no_float_ops _ _ _ _
              sample_heap_wf sample_pair_records sample_pair_2d E)
    as (arr & Harr & _ & Hs & _).
  exists b, h', arr. split; [exact sample_heap_wf|].
  split; [exact sample_pair_records|]. split; [exact sample_pair_2d|].
  split; [reflexivity|]. split; [exact Harr|exact Hs].
Defined.

Lemma sample_pair_in_range :
  Forall (fun g => entries_in_range (array_at sample_heap (edge_index g))
                                    (num_nodes g))
         [sample_g0; sample_g1].
Proof.
  repeat (apply Forall_cons; split); try apply Forall_nil_2;
    unfold entries_in_range; simpl;
    repeat (apply Forall_cons; split); try apply Forall_nil_2;
    (eexists; split; [reflexivity|lia]).
Qed.

Lemma batched_edge_index_in_range_witness :
  exists b h' arr,
    Forall (graph_record sample_heap) [sample_g0; sample_g1]
    /\ Forall (fun g => entries_in_range (array_at sample_heap (edge_index g))
                                         (num_nodes g))
              [sample_g0; sample_g1]
    /\ (Z.of_nat (sum_list (map num_nodes [sample_g0; sample_g1]))
        <= int64_max)%Z
    /\ @BatchGraphData_init no_float_ops [sample_g0; sample_g1] sample_heap
       = (Ok b, h')
    /\ h' !! edge_index (graph b) = Some arr
    /\ entries_in_range arr (num_nodes (graph b)).
Proof.
  assert (Z.of_nat (sum_list (map num_nodes [sample_g0; sample_g1]))
          <= int64_max)%Z as Hmax by (vm_compute; discriminate).
  destruct (@BatchGraphData_init no_float_ops [sample_g0; sample_g1] sample_heap)
    as [[b| |] h'] eqn:E; [|vm_compute in E; discriminate..].
  destruct (@batched_edge_index_in_range no_float_ops _ _ _ _
              sample_pair_records sample_pair_in_range Hmax E)
    as (arr & Harr & Hr).
  exists b, h', arr. split; [exact sample_pair_records|].
  split; [exact sample_pair_in_range|]. split; [exact Hmax|].
  split; [reflexivity|]. split; [exact Harr|exact Hr].
Defined.

Lemma prev_num_node_is_prefix_offset_iff_witness :
  2 < length [3; 2; 2]
  /\ prev_num_node [3; 2; 2] 2 <> prefix_offset [3; 2; 2] 2.
Proof.
  assert (2 < length [3; 2; 2]) as Hlt by (simpl; lia).
  split; [exact Hlt|]. intros Heq.
  destruct (proj1 (prev_num_node_is_prefix_offset_iff [3; 2; 2] 2 Hlt) Heq)
    as [Hle|Hz]; [lia|discriminate Hz].
Defined.

Lemma to_dgl_graph_never_returns_witness :
  @to_dgl_graph no_libraries sample_heap sample_g0
  = Raises (Std (ValueError "This function requires DGL to be installed."))
  /\ @to_dgl_graph sample_libraries sample_heap sample_g0
     = Raises (NameError "torch").
Proof.
  split.
  - exact (proj1 (proj2 (@to_dgl_graph_never_returns no_libraries
                           sample_heap sample_g0)) eq_refl).
  - exact (proj2 (proj2 (@to_dgl_graph_never_returns sample_libraries
                           sample_heap sample_g0))
             tt tt tt (ints [2; 2] [0; 1; 1; 2]%Z)
             (ints [2] [0; 1]%Z) (ints [2] [1; 2]%Z)
             eq_refl eq_refl eq_refl eq_refl eq_refl eq_refl eq_refl).
Defined.

Lemma to_pyg_graph_on_record_witness :
  @to_pyg_graph no_libraries sample_heap sample_g0
  = Raises (Std (ValueError
                   "This function requires PyTorch Geometric to be installed."))
  /\ exists ea, edge_features sample_g0 = Some ea
       /\ @to_pyg_graph sample_libraries sample_heap sample_g0
          = Returns (node_features sample_g0, edge_index sample_g0, Some ea).
Proof.
  split.
  - exact (proj1 (@to_pyg_graph_on_record no_libraries sample_heap sample_g0)
             (or_introl eq_refl)).
  - destruct (proj2 (@to_pyg_graph_on_record sample_libraries
                       sample_heap sample_g0)
                sample_g0_record eq_refl eq_refl)
      as (ea & nfa & eia & efa & Hea & _ & _ & _ & E).
    exists ea. split; [exact Hea|]. rewrite E. reflexivity.
Defined.

End MoreConcreteRuns.
